(** * ai-codereviewer: a shallow embedding of [src/main.ts]

    The action reads a pull request diff, groups the hunks of every file
    into review units, asks a completion service for suggestions on each
    unit, turns the suggestions into inline comments and publishes them
    as one review.

    The file is organised as follows:
    - [Js]: the fragment of the JavaScript runtime that [main.ts] relies
      on (numbers, strings of UTF-16 code units, JSON values, [Number],
      [parseInt], [JSON.parse], [Array.prototype.slice], ...);
    - [Diff]: the data produced by the [parse-diff] package;
    - [Grouper]: the hunk loop of [analyzeCode], as a pure function, and
      the grouping policy of the specification;
    - [Reviewer]: [createPrompt], [getAIResponse], [createComment],
      [analyzeCode] and [main] over an explicit world and call trace;
    - [Spec] and [Examples]: the vocabulary of the properties and the
      sample inputs;
    - [GrouperFacts], [JsFacts], [ReviewerFacts]: the properties of the
      specification, with one theorem per claim C1 to C10. *)

From Stdlib Require Import List ZArith NArith QArith Qround Lia Bool String Ascii.
From Stdlib Require Import DecimalString.
Import ListNotations.

Set Warnings "-register-all".
Close Scope Q_scope.
Local Open Scope nat_scope.

(* ================================================================== *)
(** * The JavaScript runtime fragment                                   *)
(* ================================================================== *)

Module Js.

(** ** Numbers

    A JavaScript number is an IEEE 754 double.  Every finite double is a
    rational, so a finite number is kept as its exact value in [Q]; the
    sign of zero, which no operation used by the program observes, is
    not kept.  [Finite] therefore also has rationals that are no
    doubles: statements quantified over [number] cover all doubles, and
    the conversions from text below round to a double. *)

Inductive number : Type :=
| NaN
| Infinity (negative : bool)
| Finite (q : Q).

Definition ofZ (z : Z) : number := Finite (inject_Z z).
Definition ofNat (n : nat) : number := ofZ (Z.of_nat n).

(** [isNaN(x)] for a number [x]. *)
Definition isNaN (x : number) : bool :=
  match x with NaN => true | _ => false end.

(** [x <= y] on numbers: false as soon as one side is NaN. *)
Definition le (x y : number) : bool :=
  match x, y with
  | NaN, _ | _, NaN => false
  | Infinity true, _ => true
  | _, Infinity false => true
  | Infinity false, _ => false
  | _, Infinity true => false
  | Finite a, Finite b => Qle_bool a b
  end.

(** [x < y] on numbers: false as soon as one side is NaN. *)
Definition lt (x y : number) : bool :=
  match x, y with
  | NaN, _ | _, NaN => false
  | Infinity true, Infinity true => false
  | Infinity true, _ => true
  | Infinity false, _ => false
  | Finite _, Infinity b => negb b
  | Finite a, Finite b => negb (Qle_bool b a)
  end.

Definition negate (x : number) : number :=
  match x with
  | NaN => NaN
  | Infinity b => Infinity (negb b)
  | Finite q => Finite (Qred (- q))
  end.

(** The number is a mathematical integer ([Number.isInteger]). *)
Definition isInteger (x : number) : bool :=
  match x with
  | Finite q => Qeq_bool q (inject_Z (Qfloor q))
  | _ => false
  end.

(** Rounding of a rational to the nearest double, ties to even
    (binary64: 53 bits of precision, least exponent -1074, overflow to
    infinity from 2^1024 on). *)
Definition roundHalfEven (x : Q) : Z :=
  let n := Qfloor x in
  match Qcompare (x - inject_Z n) (1 # 2) with
  | Lt => n
  | Gt => (n + 1)%Z
  | Eq => if Z.even n then n else (n + 1)%Z
  end.

Definition roundPositive (q : Q) : number :=
  let k := (Z.log2 (Qnum q) - Z.log2 (Zpos (Qden q)))%Z in
  let e := if Qle_bool (Qpower 2 k) q then k else (k - 1)%Z in
  let p := (Z.max e (-1022) - 52)%Z in
  let n := roundHalfEven (q / Qpower 2 p) in
  let v := (inject_Z n * Qpower 2 p)%Q in
  if Qle_bool (Qpower 2 1024) v then Infinity false else Finite (Qred v).

Definition toDouble (q : Q) : number :=
  match Qcompare q 0 with
  | Eq => Finite 0
  | Gt => roundPositive q
  | Lt => negate (roundPositive (- q))
  end.

(** ** Strings

    A JavaScript string is a sequence of UTF-16 code units; [length] is
    the number of code units. *)

Definition JsString : Type := list N.

Definition string_eqb (a b : JsString) : bool :=
  if list_eq_dec N.eq_dec a b then true else false.

(** An ASCII literal as a JavaScript string. *)
Definition lit (s : string) : JsString :=
  map N_of_ascii (list_ascii_of_string s).

(** The same, with every apostrophe standing for a double quote. *)
Definition quoted (s : string) : JsString :=
  map (fun c => if (c =? 39)%N then 34%N else c) (lit s).

Definition inRange (lo hi c : N) : bool := ((lo <=? c) && (c <=? hi))%N.

(** WhiteSpace and LineTerminator code units: what [trim] removes and
    what [Number] and [parseInt] skip. *)
Definition isWhiteSpace (c : N) : bool :=
  inRange 9 13 c || (c =? 32)%N || (c =? 160)%N || (c =? 5760)%N
  || inRange 8192 8202 c || (c =? 8232)%N || (c =? 8233)%N
  || (c =? 8239)%N || (c =? 8287)%N || (c =? 12288)%N || (c =? 65279)%N.

Fixpoint trimStart (s : JsString) : JsString :=
  match s with
  | c :: r => if isWhiteSpace c then trimStart r else s
  | [] => []
  end.

Definition trimEnd (s : JsString) : JsString := rev (trimStart (rev s)).

(** [s.trim()] *)
Definition trim (s : JsString) : JsString := trimEnd (trimStart s).

(** The longest prefix whose code units satisfy [p], and the rest. *)
Fixpoint span (p : N -> bool) (s : JsString) : JsString * JsString :=
  match s with
  | c :: r =>
      if p c then let (a, b) := span p r in (c :: a, b) else ([], s)
  | [] => ([], [])
  end.

(** [xs.join(sep)] for an array of strings. *)
Fixpoint join (sep : JsString) (xs : list JsString) : JsString :=
  match xs with
  | [] => []
  | [x] => x
  | x :: r => x ++ sep ++ join sep r
  end.

(** [s.split(sep)] for a one-unit separator. *)
Fixpoint split (sep : N) (s : JsString) : list JsString :=
  match s with
  | [] => [[]]
  | c :: r =>
      if (c =? sep)%N then [] :: split sep r
      else match split sep r with
           | w :: ws => (c :: w) :: ws
           | [] => [[c]]
           end
  end.

(** Decimal digits of a natural number ([String(n)] for an integer
    below 10^21). *)
Definition decimal (n : N) : JsString := lit (NilZero.string_of_uint (N.to_uint n)).

(** ** Text to number *)

Definition isDecimalDigit (c : N) : bool := inRange 48 57 c.

Definition digitValue (c : N) : option N :=
  if inRange 48 57 c then Some (c - 48)%N
  else if inRange 97 102 c then Some (c - 87)%N
  else if inRange 65 70 c then Some (c - 55)%N
  else None.

Definition isDigitIn (radix c : N) : bool :=
  match digitValue c with
  | Some d => (d <? radix)%N
  | None => false
  end.

(** The integer written by the digits [ds] in the given radix. *)
Definition digitsValue (radix : N) (ds : JsString) : Z :=
  fold_left
    (fun acc c =>
       (acc * Z.of_N radix + Z.of_N (match digitValue c with Some d => d | None => 0 end))%Z)
    ds 0%Z.

Definition isEmpty {A} (l : list A) : bool :=
  match l with [] => true | _ => false end.

(** ExponentPart, optional and up to the end of the text. *)
Definition exponentPart (s : JsString) : option Z :=
  match s with
  | [] => Some 0%Z
  | c :: r =>
      if (c =? 101)%N || (c =? 69)%N then
        let '(neg, r') :=
          match r with
          | 43%N :: t => (false, t)
          | 45%N :: t => (true, t)
          | _ => (false, r)
          end in
        let (ds, rest) := span isDecimalDigit r' in
        match ds, rest with
        | _ :: _, [] =>
            Some (if neg then (- digitsValue 10 ds)%Z else digitsValue 10 ds)
        | _, _ => None
        end
      else None
  end.

(** StrUnsignedDecimalLiteral other than [Infinity]: its mathematical
    value. *)
Definition unsignedDecimal (s : JsString) : option Q :=
  let (ip, r1) := span isDecimalDigit s in
  let '(fp, r2, ok) :=
    match r1 with
    | 46%N :: t =>
        let (fp, r2) := span isDecimalDigit t in
        (fp, r2, negb (isEmpty ip) || negb (isEmpty fp))
    | _ => ([], r1, negb (isEmpty ip))
    end in
  if ok then
    match exponentPart r2 with
    | Some e =>
        Some (inject_Z (digitsValue 10 (ip ++ fp))
              * Qpower 10 (e - Z.of_nat (List.length fp)))%Q
    | None => None
    end
  else None.

Definition strUnsignedDecimalLiteral (s : JsString) : number :=
  if string_eqb s (lit "Infinity") then Infinity false
  else match unsignedDecimal s with
       | Some q => toDouble q
       | None => NaN
       end.

Definition strDecimalLiteral (s : JsString) : number :=
  match s with
  | 43%N :: r => strUnsignedDecimalLiteral r
  | 45%N :: r => negate (strUnsignedDecimalLiteral r)
  | _ => strUnsignedDecimalLiteral s
  end.

(** NonDecimalIntegerLiteral: [0x], [0o] and [0b] prefixes. *)
Definition nonDecimalIntegerLiteral (s : JsString) : option number :=
  match s with
  | 48%N :: p :: ds =>
      let radix :=
        if (p =? 120)%N || (p =? 88)%N then Some 16%N
        else if (p =? 111)%N || (p =? 79)%N then Some 8%N
        else if (p =? 98)%N || (p =? 66)%N then Some 2%N
        else None in
      match radix with
      | Some r =>
          if negb (isEmpty ds) && forallb (isDigitIn r) ds
          then Some (toDouble (inject_Z (digitsValue r ds)))
          else None
      | None => None
      end
  | _ => None
  end.

(** StringToNumber: [Number(s)] for a string [s]. *)
Definition StringToNumber (s : JsString) : number :=
  let t := trim s in
  if isEmpty t then Finite 0
  else match nonDecimalIntegerLiteral t with
       | Some n => n
       | None => strDecimalLiteral t
       end.

(** A leading sign: whether it is a minus, and the text after it. *)
Definition stripSign (t : JsString) : bool * JsString :=
  match t with
  | 43%N :: r => (false, r)
  | 45%N :: r => (true, r)
  | _ => (false, t)
  end.

(** The decimal digits that [parseInt] reads: those after the leading
    white space and the sign. *)
Definition leadingDigits (s : JsString) : JsString :=
  fst (span isDecimalDigit (snd (stripSign (trimStart s)))).

(** [parseInt(s, 10)] *)
Definition parseInt10 (s : JsString) : number :=
  let ds := leadingDigits s in
  if isEmpty ds then NaN
  else let v := toDouble (inject_Z (digitsValue 10 ds)) in
       if fst (stripSign (trimStart s)) then negate v else v.

(** The integer part of a finite number (ToIntegerOrInfinity). *)
Definition truncate (q : Q) : Z :=
  if Qle_bool 0 q then Qfloor q else Qceiling q.

(** [xs.slice(0, end)] for a number [end]. *)
Definition slice0 {A} (xs : list A) (stop : number) : list A :=
  let len := Z.of_nat (List.length xs) in
  let final :=
    match stop with
    | NaN => 0%Z
    | Infinity true => 0%Z
    | Infinity false => len
    | Finite q =>
        let r := truncate q in
        if (r <? 0)%Z then Z.max (len + r) 0 else Z.min r len
    end in
  firstn (Z.to_nat final) xs.

(** ** Values and completions *)

(** The values [JSON.parse] can build, and [undefined], which reading
    an absent property yields.  An object keeps its members in source
    order; the last member of a name is the one the object has. *)
Inductive JsValue : Type :=
| VUndefined
| VNull
| VBool (b : bool)
| VNumber (n : number)
| VString (s : JsString)
| VArray (xs : list JsValue)
| VObject (members : list (JsString * JsValue)).

Inductive Error : Type :=
| TypeError      (* a property of null or undefined, a call of a non-function *)
| SyntaxError    (* JSON.parse *)
| HostError.     (* a rejected request to an external service *)

(** How an evaluation completes: with a value or by throwing. *)
Inductive Outcome (A : Type) : Type :=
| Normal (a : A)
| Throw (e : Error).
Arguments Normal {A} a.
Arguments Throw {A} e.

(** ToBoolean: the truthiness tested by [if (v)], [!v] and [v || w]. *)
Definition ToBoolean (v : JsValue) : bool :=
  match v with
  | VUndefined | VNull => false
  | VBool b => b
  | VNumber NaN => false
  | VNumber (Finite q) => negb (Qeq_bool q 0)
  | VNumber (Infinity _) => true
  | VString s => negb (isEmpty s)
  | VArray _ | VObject _ => true
  end.

(** [Number(v)].  An array is first turned into the text of its
    elements joined by commas: that text is empty for no element, is
    the text of the element for one element (empty for null and
    undefined), and has a comma, which no numeric literal has, for two
    or more.  The text of a number converts back to that number. *)
Fixpoint ToNumber (v : JsValue) : number :=
  match v with
  | VUndefined => NaN
  | VNull => Finite 0
  | VBool b => if b then Finite 1 else Finite 0
  | VNumber n => n
  | VString s => StringToNumber s
  | VArray [] => Finite 0
  | VArray [x] =>
      match x with
      | VUndefined | VNull => Finite 0
      | VBool _ => NaN
      | VObject _ => NaN
      | _ => ToNumber x
      end
  | VArray _ => NaN
  | VObject _ => NaN
  end.

(** The member an object has under a name, if any. *)
Definition getOwn (name : JsString) (members : list (JsString * JsValue))
  : option JsValue :=
  fold_left
    (fun found m => if string_eqb (fst m) name then Some (snd m) else found)
    members None.

(** [v.name], for the names the program reads: [reviews],
    [lineNumber], [reviewComment] and [length] in a reply, and
    [repository], [number], [owner], [login], [name], [action],
    [before] and [after] in the event.  None of them is an array index
    or is inherited from a built-in prototype; a string and an array
    have [length] of them and nothing else. *)
Definition getProp (v : JsValue) (name : JsString) : Outcome JsValue :=
  match v with
  | VUndefined | VNull => Throw TypeError
  | VBool _ | VNumber _ => Normal VUndefined
  | VString s =>
      if string_eqb name (lit "length")
      then Normal (VNumber (ofNat (List.length s))) else Normal VUndefined
  | VArray xs =>
      if string_eqb name (lit "length")
      then Normal (VNumber (ofNat (List.length xs))) else Normal VUndefined
  | VObject ms =>
      match getOwn name ms with
      | Some w => Normal w
      | None => Normal VUndefined
      end
  end.

(** [v < n] for a number [n]: the left side is converted by ToNumber
    and the comparison is false for NaN. *)
Definition lessThan (v : JsValue) (n : number) : bool := lt (ToNumber v) n.

(** ** JSON.parse *)

Definition isJsonSpace (c : N) : bool :=
  (c =? 32)%N || (c =? 9)%N || (c =? 10)%N || (c =? 13)%N.

Fixpoint skipSpace (s : JsString) : JsString :=
  match s with
  | c :: r => if isJsonSpace c then skipSpace r else s
  | [] => []
  end.

Definition hex4 (a b c d : N) : option N :=
  match digitValue a, digitValue b, digitValue c, digitValue d with
  | Some x, Some y, Some z, Some w => Some (((x * 16 + y) * 16 + z) * 16 + w)%N
  | _, _, _, _ => None
  end.

Definition consUnit (c : N) (r : option (JsString * JsString))
  : option (JsString * JsString) :=
  match r with
  | Some (t, rest) => Some (c :: t, rest)
  | None => None
  end.

(** The characters of a JSON string after its opening quote, up to and
    including the closing quote. *)
Fixpoint jsonChars (s : JsString) : option (JsString * JsString) :=
  match s with
  | [] => None
  | 34%N :: r => Some ([], r)
  | 92%N :: e :: r =>
      match e with
      | 34%N | 92%N | 47%N => consUnit e (jsonChars r)
      | 98%N => consUnit 8%N (jsonChars r)
      | 102%N => consUnit 12%N (jsonChars r)
      | 110%N => consUnit 10%N (jsonChars r)
      | 114%N => consUnit 13%N (jsonChars r)
      | 116%N => consUnit 9%N (jsonChars r)
      | 117%N =>
          match r with
          | a :: b :: c :: d :: r' =>
              match hex4 a b c d with
              | Some u => consUnit u (jsonChars r')
              | None => None
              end
          | _ => None
          end
      | _ => None
      end
  | c :: r => if (c <? 32)%N then None else consUnit c (jsonChars r)
  end.

(** A JSON number: [-? int frac? exp?]. *)
Definition jsonNumber (s : JsString) : option (number * JsString) :=
  let '(neg, s1) :=
    match s with 45%N :: r => (true, r) | _ => (false, s) end in
  let (ip, r1) := span isDecimalDigit s1 in
  let intOk :=
    match ip with
    | [] => false
    | [_] => true
    | d :: _ => negb (d =? 48)%N
    end in
  let '(fp, r2, fracOk) :=
    match r1 with
    | 46%N :: t =>
        let (fp, r2) := span isDecimalDigit t in (fp, r2, negb (isEmpty fp))
    | _ => ([], r1, true)
    end in
  let '(e, r3, expOk) :=
    match r2 with
    | c :: t =>
        if (c =? 101)%N || (c =? 69)%N then
          let '(eneg, t') :=
            match t with
            | 43%N :: u => (false, u)
            | 45%N :: u => (true, u)
            | _ => (false, t)
            end in
          let (ds, r3) := span isDecimalDigit t' in
          ((if eneg then - digitsValue 10 ds else digitsValue 10 ds)%Z,
           r3, negb (isEmpty ds))
        else (0%Z, r2, true)
    | [] => (0%Z, r2, true)
    end in
  if intOk && fracOk && expOk then
    let mv := (inject_Z (digitsValue 10 (ip ++ fp))
               * Qpower 10 (e - Z.of_nat (List.length fp)))%Q in
    Some (toDouble (if neg then - mv else mv)%Q, r3)
  else None.

Fixpoint dropPrefix (p s : JsString) : option JsString :=
  match p, s with
  | [], _ => Some s
  | a :: p', b :: s' => if (a =? b)%N then dropPrefix p' s' else None
  | _ :: _, [] => None
  end.

(** A JSON value at the head of the text, and the text after it.  Every
    call uses one unit of fuel; [JSON_parse] gives enough of it. *)
Fixpoint jsonValue (fuel : nat) (s : JsString) : option (JsValue * JsString) :=
  match fuel with
  | O => None
  | S f =>
      match skipSpace s with
      | 123%N :: r =>
          match skipSpace r with
          | 125%N :: r' => Some (VObject [], r')
          | _ => jsonMembers f r []
          end
      | 91%N :: r =>
          match skipSpace r with
          | 93%N :: r' => Some (VArray [], r')
          | _ => jsonElements f r []
          end
      | 34%N :: r =>
          match jsonChars r with
          | Some (t, r') => Some (VString t, r')
          | None => None
          end
      | 116%N :: r =>
          option_map (pair (VBool true)) (dropPrefix (lit "rue") r)
      | 102%N :: r =>
          option_map (pair (VBool false)) (dropPrefix (lit "alse") r)
      | 110%N :: r =>
          option_map (pair VNull) (dropPrefix (lit "ull") r)
      | t =>
          match jsonNumber t with
          | Some (n, r) => Some (VNumber n, r)
          | None => None
          end
      end
  end
with jsonElements (fuel : nat) (s : JsString) (acc : list JsValue)
  : option (JsValue * JsString) :=
  match fuel with
  | O => None
  | S f =>
      match jsonValue f s with
      | Some (v, r) =>
          match skipSpace r with
          | 44%N :: r' => jsonElements f r' (v :: acc)
          | 93%N :: r' => Some (VArray (rev (v :: acc)), r')
          | _ => None
          end
      | None => None
      end
  end
with jsonMembers (fuel : nat) (s : JsString) (acc : list (JsString * JsValue))
  : option (JsValue * JsString) :=
  match fuel with
  | O => None
  | S f =>
      match skipSpace s with
      | 34%N :: r =>
          match jsonChars r with
          | Some (k, r1) =>
              match skipSpace r1 with
              | 58%N :: r2 =>
                  match jsonValue f r2 with
                  | Some (v, r3) =>
                      match skipSpace r3 with
                      | 44%N :: r4 => jsonMembers f r4 ((k, v) :: acc)
                      | 125%N :: r4 => Some (VObject (rev ((k, v) :: acc)), r4)
                      | _ => None
                      end
                  | None => None
                  end
              | _ => None
              end
          | None => None
          end
      | _ => None
      end
  end.

(** [JSON.parse(s)]: the value of the whole text, or a SyntaxError.
    Nesting one level or moving to the next element consumes at least
    one code unit, so twice the length of the text bounds the depth of
    the calls. *)
Definition JSON_parse (s : JsString) : Outcome JsValue :=
  match jsonValue (2 * List.length s + 2) s with
  | Some (v, r) => if isEmpty (skipSpace r) then Normal v else Throw SyntaxError
  | None => Throw SyntaxError
  end.

End Js.
Import Js.

(* ================================================================== *)
(** * The parsed diff                                                   *)
(* ================================================================== *)

Module Diff.

(** A line of a hunk, as [parse-diff] types it: an added or a deleted
    line has [ln], a context line has [ln1] and [ln2]. *)
Inductive Change : Type :=
| AddChange (ln : N) (content : JsString)
| DeleteChange (ln : N) (content : JsString)
| NormalChange (ln1 ln2 : N) (content : JsString).

(** A hunk.  Of the fields of [parse-diff]'s [Chunk] the program reads
    [content] (the header line) and [changes]; the object that
    [analyzeCode] builds for several hunks has just these two. *)
Record Chunk : Type := { content : JsString; changes : list Change }.

(** A changed file: the program reads [to] and [chunks]. *)
Record File : Type := { to : option JsString; chunks : list Chunk }.

Definition size (c : Chunk) : nat := List.length (changes c).

(** The lines of the new version of the file that the diff shows. *)
Definition newLines (file : File) : list N :=
  flat_map
    (fun chunk =>
       flat_map
         (fun change =>
            match change with
            | AddChange ln _ => [ln]
            | DeleteChange _ _ => []
            | NormalChange _ ln2 _ => [ln2]
            end)
         (changes chunk))
    (chunks file).

End Diff.
Import Diff.

(* ================================================================== *)
(** * Grouping hunks into review units                                  *)
(* ================================================================== *)

Module Grouper.

(** A review unit is what is passed to [createPrompt] as [chunk]. *)
Definition ReviewUnit : Type := Chunk.

Definition maxChangesPerChunk : nat := 100.

Definition newline : JsString := [10%N].

(** The [combinedChunk] of a file with at most three hunks. *)
Definition wholeFile (cs : list Chunk) : ReviewUnit :=
  {| content := join newline (map content cs);
     changes := flat_map changes cs |}.

(** The [combinedChunk] of a hunk and the next one. *)
Definition combinedChunk (chunk nextChunk : Chunk) : ReviewUnit :=
  {| content := content chunk ++ newline ++ content nextChunk;
     changes := changes chunk ++ changes nextChunk |}.

(** The loop [for (let i = 0; i < file.chunks.length; i++)] from index
    [i] on: the units it reviews, in order.  An iteration uses one unit
    of fuel and moves [i] forward, so [length chunks] units are enough
    (lemma [hunkLoop_fuel]). *)
Fixpoint hunkLoop (fuel : nat) (chunks : list Chunk) (i : nat) : list ReviewUnit :=
  match fuel with
  | O => []
  | S fuel' =>
      match nth_error chunks i with
      | None => []
      | Some chunk =>
          if size chunk <? 3 then
            hunkLoop fuel' chunks (i + 1)
          else if maxChangesPerChunk <? size chunk then
            chunk :: hunkLoop fuel' chunks (i + 1)
          else
            let alone := chunk :: hunkLoop fuel' chunks (i + 1) in
            if i <? List.length chunks - 1 then
              match nth_error chunks (i + 1) with
              | Some nextChunk =>
                  let combinedChanges := changes chunk ++ changes nextChunk in
                  if List.length combinedChanges <=? maxChangesPerChunk then
                    combinedChunk chunk nextChunk :: hunkLoop fuel' chunks (i + 2)
                  else alone
              | None => alone
              end
            else alone
      end
  end.

(** The units of a file that is reviewed: one for the whole file when
    it has at most three hunks, those of the loop otherwise. *)
Definition groupChunks (file : File) : list ReviewUnit :=
  if List.length (chunks file) <=? 3 then [wholeFile (chunks file)]
  else hunkLoop (List.length (chunks file)) (chunks file) 0.

Definition isDeleted (file : File) : bool :=
  match to file with
  | Some p => string_eqb p (lit "/dev/null")
  | None => false
  end.

(** The units [analyzeCode] reviews for a file: none for a deleted
    file. *)
Definition reviewUnits (file : File) : list ReviewUnit :=
  if isDeleted file then [] else groupChunks file.

(** The grouping policy in the words of the specification, as a
    relation between the hunks of a file, a position in them and the
    units emitted from that position on. *)
Inductive Policy (chunks : list Chunk) : nat -> list ReviewUnit -> Prop :=
| policy_done i :
    List.length chunks <= i ->
    Policy chunks i []
| policy_skip i chunk units :
    nth_error chunks i = Some chunk ->
    size chunk < 3 ->
    Policy chunks (i + 1) units ->
    Policy chunks i units
| policy_large i chunk units :
    nth_error chunks i = Some chunk ->
    maxChangesPerChunk < size chunk ->
    Policy chunks (i + 1) units ->
    Policy chunks i (chunk :: units)
| policy_merge i chunk nextChunk units :
    nth_error chunks i = Some chunk ->
    nth_error chunks (i + 1) = Some nextChunk ->
    3 <= size chunk ->
    size chunk + size nextChunk <= maxChangesPerChunk ->
    Policy chunks (i + 2) units ->
    Policy chunks i (combinedChunk chunk nextChunk :: units)
| policy_alone i chunk units :
    nth_error chunks i = Some chunk ->
    3 <= size chunk <= maxChangesPerChunk ->
    (forall nextChunk, nth_error chunks (i + 1) = Some nextChunk ->
                       maxChangesPerChunk < size chunk + size nextChunk) ->
    Policy chunks (i + 1) units ->
    Policy chunks i (chunk :: units).

(** A unit within the ceiling, or a single hunk of the file that is
    above it by itself. *)
Definition WithinCeiling (file : File) (unit : ReviewUnit) : Prop :=
  size unit <= maxChangesPerChunk
  \/ (In unit (chunks file) /\ maxChangesPerChunk < size unit).

(** A unit made of one hunk, or of a hunk and the hunk right after it
    with at most the ceiling of changed lines together. *)
Definition AdjacentOnly (chunks : list Chunk) (unit : ReviewUnit) : Prop :=
  (exists i, nth_error chunks i = Some unit)
  \/ (exists i chunk nextChunk,
        nth_error chunks i = Some chunk
        /\ nth_error chunks (i + 1) = Some nextChunk
        /\ unit = combinedChunk chunk nextChunk
        /\ size chunk + size nextChunk <= maxChangesPerChunk).

End Grouper.
Import Grouper.

(* ================================================================== *)
(** * The review run                                                    *)
(* ================================================================== *)

Module Reviewer.

(** The run is a computation over the state of the outside world: every
    request that leaves the process is answered by the host and is
    recorded, in order, so that what a run asked for and published can
    be read off its calls.  Writing to the console is left out: the
    messages are built from values that are at hand and change
    nothing.  The access token and the API key only configure the two
    clients and do not appear. *)

Record PRDetails : Type :=
  { owner : JsValue;
    repo : JsValue;
    pull_number : JsValue;
    title : JsString;
    description : JsString }.

(** An inline comment: [{ body, path, line }].  The body is whatever
    value the reply has under [reviewComment]. *)
Record Comment : Type := { body : JsValue; path : JsString; line : number }.

(** ** The outside world *)

(** The chat completion request: besides the fixed sampling settings
    (temperature 0.4, max_tokens 700, top_p 1, both penalties 0.2) it
    has the model, the JSON response format for one model, and the
    prompt as the only message. *)
Record CompletionRequest : Type :=
  { model : JsString; json_object : bool; prompt : JsString }.

(** What the program reads of a chat completion: [choices], the
    [message] of a choice and its [content]. *)
Record Message : Type := { message_content : option JsString }.
Record Choice : Type := { message : option Message }.
Record ChatCompletion : Type := { choices : list Choice }.

(** What the program reads of a pull request: [data.title] and
    [data.body], either of which may be null. *)
Record PullData : Type := { data_title : option JsString; data_body : option JsString }.

(** The calls that leave the process, with their arguments. *)
Inductive Call : Type :=
| ReadFile (file : JsString)
| PullsGet (owner repo pull_number : JsValue)
| PullsGetDiff (owner repo pull_number : JsValue)
| CompareCommits (owner repo base head : JsValue)
| CompletionsCreate (request : CompletionRequest)
| CreateReview (owner repo pull_number : JsValue) (comments : list Comment).

(** The host of a run over worlds [W]: the configuration, the two pure
    packages, and for every call the answer of the world and the world
    after it.  [pulls_get_diff] and [compareCommits] answer with the
    diff text ([response.data]; null for no text). *)
Record Host (W : Type) : Type :=
  { getInput : JsString -> JsString;
    GITHUB_EVENT_PATH : option JsString;
    parseDiff : JsString -> list File;
    minimatch : JsString -> JsString -> bool;
    readFileSync : JsString -> W -> Outcome JsString * W;
    pulls_get : JsValue -> JsValue -> JsValue -> W -> Outcome PullData * W;
    pulls_get_diff : JsValue -> JsValue -> JsValue -> W -> Outcome (option JsString) * W;
    compareCommits : JsValue -> JsValue -> JsValue -> JsValue -> W -> Outcome JsString * W;
    completions_create : CompletionRequest -> W -> Outcome ChatCompletion * W;
    pulls_createReview :
      JsValue -> JsValue -> JsValue -> list Comment -> W -> Outcome unit * W }.
Arguments getInput {W}.
Arguments GITHUB_EVENT_PATH {W}.
Arguments parseDiff {W}.
Arguments minimatch {W}.
Arguments readFileSync {W}.
Arguments pulls_get {W}.
Arguments pulls_get_diff {W}.
Arguments compareCommits {W}.
Arguments completions_create {W}.
Arguments pulls_createReview {W}.

(** ** Computations: a world, the calls made so far, and exceptions *)

Record State (W : Type) : Type := { world : W; calls : list Call }.
Arguments world {W}.
Arguments calls {W}.

Definition M (W A : Type) : Type := State W -> Outcome A * State W.

Definition ret {W A} (a : A) : M W A := fun s => (Normal a, s).

Definition bind {W A B} (m : M W A) (k : A -> M W B) : M W B :=
  fun s =>
    match m s with
    | (Normal a, s') => k a s'
    | (Throw e, s') => (Throw e, s')
    end.

(** A pure evaluation that may throw. *)
Definition lift {W A} (o : Outcome A) : M W A := fun s => (o, s).

(** [try { m } catch (error) { h }] *)
Definition tryCatch {W A} (m : M W A) (h : Error -> M W A) : M W A :=
  fun s =>
    match m s with
    | (Normal a, s') => (Normal a, s')
    | (Throw e, s') => h e s'
    end.

(** An awaited call: it is recorded and answered by the world. *)
Definition await {W A} (c : Call) (answer : W -> Outcome A * W) : M W A :=
  fun s =>
    let (r, w) := answer (world s) in
    (r, {| world := w; calls := calls s ++ [c] |}).

(** The state a process starts in. *)
Definition initial {W} (w : W) : State W := {| world := w; calls := [] |}.

Declare Scope run_scope.
Delimit Scope run_scope with run.
Notation "x <- m ;; k" := (bind m (fun x => k))
  (at level 61, m at next level, right associativity) : run_scope.
Local Open Scope run_scope.

(** [for (const x of xs) { acc = f(x, acc) }] *)
Fixpoint forEach {W A S} (f : A -> S -> M W S) (xs : list A) (acc : S) : M W S :=
  match xs with
  | [] => ret acc
  | x :: r => acc' <- f x acc ;; forEach f r acc'
  end.

(** Pure evaluations that may throw chain in the same way. *)
Definition andThen {A B} (o : Outcome A) (k : A -> Outcome B) : Outcome B :=
  match o with
  | Normal a => k a
  | Throw e => Throw e
  end.

(** [xs.flatMap(f)] for a callback that may throw. *)
Fixpoint flatMap {A B} (f : A -> Outcome (list B)) (xs : list A) : Outcome (list B) :=
  match xs with
  | [] => Normal []
  | x :: r =>
      andThen (f x) (fun ys =>
      andThen (flatMap f r) (fun zs => Normal (ys ++ zs)))
  end.

Section Run.

Context {W : Type} (host : Host W).

Definition OPENAI_API_MODEL : JsString := getInput host (lit "OPENAI_API_MODEL").

(** [parseInt(core.getInput("MAX_COMMENTS_PER_PR") || "10", 10)] *)
Definition MAX_COMMENTS_PER_PR : number :=
  let input := getInput host (lit "MAX_COMMENTS_PER_PR") in
  parseInt10 (if isEmpty input then lit "10" else input).

(** ** createPrompt *)

(** [`${c.ln ? c.ln : c.ln2}`] *)
Definition lineLabel (c : Change) : JsString :=
  match c with
  | AddChange ln _ | DeleteChange ln _ =>
      if (ln =? 0)%N then lit "undefined" else decimal ln
  | NormalChange _ ln2 _ => decimal ln2
  end.

Definition changeContent (c : Change) : JsString :=
  match c with
  | AddChange _ t | DeleteChange _ t | NormalChange _ _ t => t
  end.

Definition instructions : JsString := quoted
"Your task is to review pull requests. Instructions:
- Provide the response in following JSON format:  {'reviews': [{'lineNumber':  <line_number>, 'reviewComment': '<review comment>'}]}
- Do not give positive comments or compliments.
- Focus ONLY on significant functional issues, potential bugs, security concerns, and important performance problems.
- IGNORE minor stylistic issues like:
  * Variable naming (unless extremely misleading)
  * Indentation or whitespace
  * Missing newlines
  * Comment formatting or wording
  * Other cosmetic issues
- Provide comments ONLY for issues that could impact functionality, security, or performance.
- If no significant issues are found, 'reviews' should be an empty array.
- Write the comment in GitHub Markdown format.
- Use the given description only for the overall context and only comment the code.
- IMPORTANT: NEVER suggest adding comments to the code.
- Limit to at most 2-3 high-value comments per chunk.

Review the following code diff in the file '".

Definition createPrompt (file : File) (chunk : ReviewUnit) (prDetails : PRDetails)
  : JsString :=
  instructions
  ++ match to file with Some p => p | None => lit "undefined" end
  ++ quoted "' and take the pull request title and description into account when writing the response.
  
Pull request title: "
  ++ title prDetails
  ++ lit "
Pull request description:

---
"
  ++ description prDetails
  ++ lit "
---

Git diff to review:

```diff
"
  ++ content chunk
  ++ newline
  ++ join newline
       (map (fun c => lineLabel c ++ lit " " ++ changeContent c) (changes chunk))
  ++ lit "
```
".

(** ** getAIResponse *)

Definition queryConfig (prompt : JsString) : CompletionRequest :=
  {| model := OPENAI_API_MODEL;
     json_object := string_eqb OPENAI_API_MODEL (lit "gpt-4-1106-preview");
     prompt := prompt |}.

(** [response.choices[0].message?.content?.trim() || "{}"] *)
Definition replyText (response : ChatCompletion) : Outcome JsString :=
  match choices response with
  | [] => Throw TypeError
  | choice :: _ =>
      match message choice with
      | Some {| message_content := Some text |} =>
          let res := trim text in
          Normal (if isEmpty res then lit "{}" else res)
      | _ => Normal (lit "{}")
      end
  end.

(** The value of [reviews] in the reply, or null after any exception. *)
Definition getAIResponse (prompt : JsString) : M W JsValue :=
  tryCatch
    (response <-
       await (CompletionsCreate (queryConfig prompt))
             (completions_create host (queryConfig prompt)) ;;
     res <- lift (replyText response) ;;
     reply <- lift (JSON_parse res) ;;
     lift (getProp reply (lit "reviews")))
    (fun _ => ret VNull).

(** ** createComment *)

(** The callback of [flatMap]: the comments, none or one, for one
    suggestion. *)
Definition commentOf (file : File) (aiResponse : JsValue) : Outcome (list Comment) :=
  match to file with
  | None => Normal []
  | Some path =>
      if isEmpty path then Normal []
      else
        andThen (getProp aiResponse (lit "lineNumber")) (fun raw =>
        let lineNumber := ToNumber raw in
        if isNaN lineNumber || le lineNumber (Finite 0) then Normal []
        else
          andThen (getProp aiResponse (lit "reviewComment")) (fun reviewComment =>
          andThen (getProp reviewComment (lit "length")) (fun len =>
          if lessThan len (Finite 20) then Normal []
          else Normal [ {| body := reviewComment; path := path; line := lineNumber |} ])))
  end.

(** [aiResponses.flatMap(...)]: only an array has [flatMap]. *)
Definition createComment (file : File) (chunk : ReviewUnit) (aiResponses : JsValue)
  : Outcome (list Comment) :=
  match aiResponses with
  | VArray suggestions => flatMap (commentOf file) suggestions
  | _ => Throw TypeError
  end.

(** ** analyzeCode *)

(** The block run for every unit: prompt, completion, comments. *)
Definition reviewUnit (prDetails : PRDetails) (file : File) (chunk : ReviewUnit)
    (comments : list Comment) : M W (list Comment) :=
  let prompt := createPrompt file chunk prDetails in
  aiResponse <- getAIResponse prompt ;;
  if ToBoolean aiResponse then
    newComments <- lift (createComment file chunk aiResponse) ;;
    ret (comments ++ newComments)
  else ret comments.

(** The loop over the hunks of a file with more than three hunks, from
    index [i] on.  It walks like [Grouper.hunkLoop] and reviews every
    unit where that function lists it (lemma [reviewChunks_units]). *)
Fixpoint reviewChunks (fuel : nat) (prDetails : PRDetails) (file : File) (i : nat)
    (comments : list Comment) : M W (list Comment) :=
  match fuel with
  | O => ret comments
  | S fuel' =>
      match nth_error (chunks file) i with
      | None => ret comments
      | Some chunk =>
          if size chunk <? 3 then
            reviewChunks fuel' prDetails file (i + 1) comments
          else if maxChangesPerChunk <? size chunk then
            comments' <- reviewUnit prDetails file chunk comments ;;
            reviewChunks fuel' prDetails file (i + 1) comments'
          else
            let alone :=
              comments' <- reviewUnit prDetails file chunk comments ;;
              reviewChunks fuel' prDetails file (i + 1) comments' in
            if i <? List.length (chunks file) - 1 then
              match nth_error (chunks file) (i + 1) with
              | Some nextChunk =>
                  let combinedChanges := changes chunk ++ changes nextChunk in
                  if List.length combinedChanges <=? maxChangesPerChunk then
                    comments' <-
                      reviewUnit prDetails file (combinedChunk chunk nextChunk) comments ;;
                    reviewChunks fuel' prDetails file (i + 2) comments'
                  else alone
              | None => alone
              end
            else alone
      end
  end.

(** The body of [for (const file of parsedDiff)]. *)
Definition reviewFile (prDetails : PRDetails) (file : File) (comments : list Comment)
  : M W (list Comment) :=
  if isDeleted file then ret comments
  else if List.length (chunks file) <=? 3 then
    reviewUnit prDetails file (wholeFile (chunks file)) comments
  else reviewChunks (List.length (chunks file)) prDetails file 0 comments.

(** The comments pushed while all files are processed, before the cut. *)
Definition accumulate (parsedDiff : list File) (prDetails : PRDetails)
  : M W (list Comment) :=
  forEach (reviewFile prDetails) parsedDiff [].

Definition analyzeCode (parsedDiff : list File) (prDetails : PRDetails)
  : M W (list Comment) :=
  comments <- accumulate parsedDiff prDetails ;;
  ret (slice0 comments MAX_COMMENTS_PER_PR).

(** ** main *)

Definition createReviewComment (owner repo pull_number : JsValue)
    (comments : list Comment) : M W unit :=
  await (CreateReview owner repo pull_number comments)
        (pulls_createReview host owner repo pull_number comments).

Definition orEmpty (s : option JsString) : JsString :=
  match s with Some t => t | None => [] end.

(** [JSON.parse(readFileSync(process.env.GITHUB_EVENT_PATH || "", "utf8"))] *)
Definition readEvent : M W JsValue :=
  let file := orEmpty (GITHUB_EVENT_PATH host) in
  text <- await (ReadFile file) (readFileSync host file) ;;
  lift (JSON_parse text).

Definition getPRDetails : M W PRDetails :=
  event <- readEvent ;;
  repository <- lift (getProp event (lit "repository")) ;;
  number <- lift (getProp event (lit "number")) ;;
  repositoryOwner <- lift (getProp repository (lit "owner")) ;;
  login <- lift (getProp repositoryOwner (lit "login")) ;;
  name <- lift (getProp repository (lit "name")) ;;
  prResponse <- await (PullsGet login name number) (pulls_get host login name number) ;;
  ret {| owner := login;
         repo := name;
         pull_number := number;
         title := orEmpty (data_title prResponse);
         description := orEmpty (data_body prResponse) |}.

Definition getDiff (owner repo pull_number : JsValue) : M W (option JsString) :=
  await (PullsGetDiff owner repo pull_number) (pulls_get_diff host owner repo pull_number).

(** [v === "synchronize"] *)
Definition isSynchronize (v : JsValue) : bool :=
  match v with
  | VString s => string_eqb s (lit "synchronize")
  | _ => false
  end.

(** The first part of [main]: the pull request and its diff, which is
    compared between two commits on a synchronize event. *)
Definition loadDiff : M W (PRDetails * option JsString) :=
  prDetails <- getPRDetails ;;
  eventData <- readEvent ;;
  action <- lift (getProp eventData (lit "action")) ;;
  diff <-
    (if isSynchronize action then
       newBaseSha <- lift (getProp eventData (lit "before")) ;;
       newHeadSha <- lift (getProp eventData (lit "after")) ;;
       data <-
         await (CompareCommits (owner prDetails) (repo prDetails) newBaseSha newHeadSha)
               (compareCommits host (owner prDetails) (repo prDetails) newBaseSha newHeadSha) ;;
       ret (Some data)
     else getDiff (owner prDetails) (repo prDetails) (pull_number prDetails)) ;;
  ret (prDetails, diff).

(** The files left by the exclude patterns. *)
Definition filteredDiff (diff : JsString) : list File :=
  let parsedDiff := parseDiff host diff in
  let excludePatterns := map trim (split 44 (getInput host (lit "exclude"))) in
  filter
    (fun file =>
       negb (existsb (fun pattern => minimatch host (orEmpty (to file)) pattern)
                     excludePatterns))
    parsedDiff.

Definition main : M W unit :=
  loaded <- loadDiff ;;
  let prDetails := fst loaded in
  let diff := orEmpty (snd loaded) in
  if isEmpty diff then ret tt
  else
    comments <- analyzeCode (filteredDiff diff) prDetails ;;
    if 0 <? List.length comments then
      createReviewComment (owner prDetails) (repo prDetails) (pull_number prDetails)
                          comments
    else ret tt.

(** [main().catch(... process.exit(1))]: the exit code of the process
    started in world [w], and the world and calls at its end. *)
Definition run (w : W) : Z * State W :=
  match main (initial w) with
  | (Normal _, s) => (0%Z, s)
  | (Throw _, s) => (1%Z, s)
  end.

End Run.

End Reviewer.
Import Reviewer.

(* ================================================================== *)
(** * The vocabulary of the properties                                  *)
(* ================================================================== *)

Module Spec.

Definition isCreateReview (c : Call) : bool :=
  match c with CreateReview _ _ _ _ => true | _ => false end.

(** Calls among which there is no review creation. *)
Definition NoReview (cs : list Call) : Prop :=
  Forall (fun c => isCreateReview c = false) cs.

(** A computation that creates no review, whatever it does else. *)
Definition Quiet {W A} (m : M W A) : Prop :=
  forall s r s', m s = (r, s') ->
                 exists extra, calls s' = calls s ++ extra /\ NoReview extra.

(** The state after one completion request for [prompt]. *)
Definition afterRequest {W} (host : Host W) (prompt : JsString) (s : State W) : State W :=
  {| world := snd (completions_create host (queryConfig host prompt) (world s));
     calls := calls s ++ [CompletionsCreate (queryConfig host prompt)] |}.

(** ** The comment assembler in the words of the specification *)

(** What a suggestion has under a name; undefined when it has nothing
    there. *)
Definition field (name : string) (v : JsValue) : JsValue :=
  match getProp v (lit name) with
  | Normal w => w
  | Throw _ => VUndefined
  end.

Definition suggestedLine (suggestion : JsValue) : number :=
  ToNumber (field "lineNumber" suggestion).

Definition suggestedText (suggestion : JsValue) : JsValue :=
  field "reviewComment" suggestion.

(** The line number is a number and is positive. *)
Definition positiveLine (n : number) : bool := negb (isNaN n) && lt (Finite 0) n.

(** The text is shorter than 20. *)
Definition tooShort (text : JsValue) : bool := lessThan (field "length" text) (Finite 20).

(** The suggestion is not dropped. *)
Definition survives (suggestion : JsValue) : bool :=
  positiveLine (suggestedLine suggestion) && negb (tooShort (suggestedText suggestion)).

Definition inlineComment (path : JsString) (suggestion : JsValue) : Comment :=
  {| body := suggestedText suggestion;
     path := path;
     line := suggestedLine suggestion |}.

(** The comments for the suggestions that survive, in their order. *)
Definition assemble (file : File) (suggestions : list JsValue) : list Comment :=
  match to file with
  | Some path =>
      if isEmpty path then [] else map (inlineComment path) (filter survives suggestions)
  | None => []
  end.

(** A comment the assembler may emit: on a positive line, and if its
    body is text, with at least 20 code units of it. *)
Definition ValidComment (c : Comment) : Prop :=
  isNaN (line c) = false
  /\ lt (Finite 0) (line c) = true
  /\ forall text, body c = VString text -> 20 <= List.length text.

(** A suggestion as the program types it: an object with a string
    under [lineNumber] and a string under [reviewComment]. *)
Definition TypedSuggestion (suggestion : JsValue) : Prop :=
  exists members lineNumber reviewComment,
    suggestion = VObject members
    /\ getOwn (lit "lineNumber") members = Some (VString lineNumber)
    /\ getOwn (lit "reviewComment") members = Some (VString reviewComment).

End Spec.
Import Spec.

(* ================================================================== *)
(** * Sample inputs                                                     *)
(* ================================================================== *)

Module Examples.

(** A hunk of [n] added lines that start at line [first]. *)
Definition hunk (first : N) (n : nat) : Chunk :=
  {| content := lit "@@ +" ++ decimal first ++ lit " @@";
     changes := map (fun k => AddChange (first + N.of_nat k) (lit "+ code")) (seq 0 n) |}.

Definition fileOf (name : string) (hunks : list Chunk) : File :=
  {| to := Some (lit name); chunks := hunks |}.

(** Four hunks of 5, 1, 5 and 5 changed lines. *)
Definition mixedFile : File :=
  fileOf "src/mixed.ts" [hunk 10 5; hunk 40 1; hunk 70 5; hunk 90 5].

(** Two hunks of 60 changed lines each. *)
Definition twoLargeHunks : File :=
  fileOf "src/large.ts" [hunk 1 60; hunk 200 60].

(** Two hunks of 5 and 4 changed lines. *)
Definition twoSmallHunks : File :=
  fileOf "src/small.ts" [hunk 1 5; hunk 30 4].

(** Five hunks of 1, 40, 120, 10 and 10 changed lines. *)
Definition fiveHunks : File :=
  fileOf "src/five.ts" [hunk 1 1; hunk 50 40; hunk 200 120; hunk 400 10; hunk 500 10].

(** A world that answers the completion requests from a script, in
    order, and rejects any request after the last answer. *)
Definition Script : Type := list (Outcome ChatCompletion).

Definition reply (text : string) : Outcome ChatCompletion :=
  Normal {| choices := [ {| message := Some {| message_content := Some (quoted text) |} |} ] |}.

Definition eventFile : JsString :=
  quoted "{'action':'opened','number':7,'repository':{'name':'demo','owner':{'login':'octo'}}}".

(** A host with the given input for MAX_COMMENTS_PER_PR and no exclude
    pattern, on a pull request whose diff parses to [files]. *)
Definition scripted (maxComments : string) (files : list File) : Host Script :=
  {| getInput := fun name =>
       if string_eqb name (lit "MAX_COMMENTS_PER_PR") then lit maxComments
       else if string_eqb name (lit "OPENAI_API_MODEL") then lit "gpt-4.1-nano"
       else [];
     GITHUB_EVENT_PATH := Some (lit "/github/workflow/event.json");
     parseDiff := fun _ => files;
     minimatch := fun _ _ => false;
     readFileSync := fun _ w => (Normal eventFile, w);
     pulls_get := fun _ _ _ w =>
       (Normal {| data_title := Some (lit "Add feature"); data_body := None |}, w);
     pulls_get_diff := fun _ _ _ w => (Normal (Some (lit "diff --git a/f b/f")), w);
     compareCommits := fun _ _ _ _ w => (Throw HostError, w);
     completions_create := fun _ w =>
       match w with
       | answer :: rest => (answer, rest)
       | [] => (Throw HostError, [])
       end;
     pulls_createReview := fun _ _ _ _ w => (Normal tt, w) |}.

Definition samplePR : PRDetails :=
  {| owner := VString (lit "octo");
     repo := VString (lit "demo");
     pull_number := VNumber (ofZ 7);
     title := lit "Add feature";
     description := [] |}.

(** A reply whose only suggestion has no [reviewComment]. *)
Definition incompleteReply : Outcome ChatCompletion :=
  reply "{'reviews': [{'lineNumber': 5}]}".

(** A reply with three suggestions that pass the checks. *)
Definition threeSuggestions : Outcome ChatCompletion :=
  reply "{'reviews': [
    {'lineNumber': 1, 'reviewComment': 'The loop never terminates when n is 0.'},
    {'lineNumber': '2', 'reviewComment': 'This index can be out of bounds here.'},
    {'lineNumber': 3, 'reviewComment': 'The password is written to the log.'}]}".

(** A reply with no suggestion. *)
Definition nothingFound : Outcome ChatCompletion := reply "{'reviews': []}".

(** Suggestions on line 1.5 and on line 100000. *)
Definition strayLines : JsValue :=
  VArray
    [VObject [(lit "lineNumber", VNumber (Finite (3 # 2)));
              (lit "reviewComment", VString (lit "This value is never checked for null."))];
     VObject [(lit "lineNumber", VString (lit "100000"));
              (lit "reviewComment", VString (lit "The file handle is never closed here."))]].

Definition suggestion (lineNumber text : string) : JsValue :=
  VObject [(lit "lineNumber", VString (lit lineNumber));
           (lit "reviewComment", VString (lit text))].

(** Five suggestions: the first and the last pass the checks, the
    others have a line number that is no number, a line number of
    zero, and a text of 9 code units. *)
Definition fiveSuggestions : list JsValue :=
  [suggestion "4" "The divisor can be zero on this line.";
   suggestion "line 7" "The lock is never released on this path.";
   suggestion "0" "The response status is never checked.";
   suggestion "12" "Looks ok.";
   suggestion "31" "The buffer is read past its end here."].

(** Completion requests among the calls. *)
Definition isCompletion (c : Call) : bool :=
  match c with CompletionsCreate _ => true | _ => false end.

End Examples.

(* ================================================================== *)
(** * Further vocabulary and sample inputs                              *)
(* ================================================================== *)

Module Coverage.

(** The completion requests for the units of a file, in order. *)
Definition requestsFor {W} (host : Host W) (prDetails : PRDetails) (file : File)
    (units : list ReviewUnit) : list Call :=
  map (fun unit => CompletionsCreate (queryConfig host (createPrompt file unit prDetails)))
      units.

(** A completion request or a review creation. *)
Definition isRemote (c : Call) : bool :=
  match c with
  | CompletionsCreate _ | CreateReview _ _ _ _ => true
  | _ => false
  end.

(** A computation none of whose calls satisfies [p]. *)
Definition Avoids {W A} (p : Call -> bool) (m : M W A) : Prop :=
  forall s r s', m s = (r, s') ->
                 exists extra, calls s' = calls s ++ extra
                               /\ Forall (fun c => p c = false) extra.

(** A choice with no text to parse: no message, no content, or a
    content of white space only. *)
Definition BlankChoice (choice : Choice) : Prop :=
  message choice = None
  \/ message choice = Some {| message_content := None |}
  \/ exists text, message choice = Some {| message_content := Some text |}
                  /\ forallb isWhiteSpace text = true.

(** [core.getInput("exclude").split(",").map((s) => s.trim())] *)
Definition excludePatterns {W} (host : Host W) : list JsString :=
  map trim (split 44 (getInput host (lit "exclude"))).


(** The host [base] with another event file and another answer to the
    creation of a review. *)
Definition withEvent {W} (base : Host W)
    (read : JsString -> W -> Outcome JsString * W) : Host W :=
  {| getInput := getInput base;
     GITHUB_EVENT_PATH := GITHUB_EVENT_PATH base;
     parseDiff := parseDiff base;
     minimatch := minimatch base;
     readFileSync := read;
     pulls_get := pulls_get base;
     pulls_get_diff := pulls_get_diff base;
     compareCommits := compareCommits base;
     completions_create := completions_create base;
     pulls_createReview := pulls_createReview base |}.

Definition withCreateReview {W} (base : Host W)
    (create : JsValue -> JsValue -> JsValue -> list Comment -> W -> Outcome unit * W)
  : Host W :=
  {| getInput := getInput base;
     GITHUB_EVENT_PATH := GITHUB_EVENT_PATH base;
     parseDiff := parseDiff base;
     minimatch := minimatch base;
     readFileSync := readFileSync base;
     pulls_get := pulls_get base;
     pulls_get_diff := pulls_get_diff base;
     compareCommits := compareCommits base;
     completions_create := completions_create base;
     pulls_createReview := create |}.

(** Five hunks of 1, 2, 0, 2 and 1 changed lines. *)
Definition tinyHunks : File :=
  Examples.fileOf "src/tiny.ts"
    [Examples.hunk 1 1; Examples.hunk 20 2; Examples.hunk 40 0;
     Examples.hunk 60 2; Examples.hunk 80 1].


(** A deleted file. *)
Definition deletedFile : File :=
  {| to := Some (lit "/dev/null"); chunks := [Examples.hunk 1 5] |}.

(** A file with no destination path. *)
Definition pathless : File := {| to := None; chunks := [Examples.hunk 1 5] |}.

End Coverage.
Import Coverage.

(* ================================================================== *)
(** * Properties of the grouping                                        *)
(* ================================================================== *)

Module GrouperFacts.

Lemma string_eqb_eq a b : string_eqb a b = true <-> a = b.
Proof.
  unfold string_eqb. destruct (list_eq_dec N.eq_dec a b); split; congruence.
Qed.

Lemma size_combinedChunk a b : size (combinedChunk a b) = size a + size b.
Proof. unfold size; simpl. apply length_app. Qed.

(** The loop follows the policy from any index, given fuel for the
    hunks that remain. *)
Lemma hunkLoop_policy chunks :
  forall fuel i,
    List.length chunks - i <= fuel ->
    Policy chunks i (hunkLoop fuel chunks i).
Proof.
  induction fuel as [|fuel IH]; intros i Hfuel.
  - simpl. apply policy_done. lia.
  - simpl. destruct (nth_error chunks i) as [chunk|] eqn:Hi.
    2:{ apply policy_done. now apply nth_error_None. }
    assert (Hlt : i < List.length chunks)
      by (apply nth_error_Some; congruence).
    assert (IH1 : Policy chunks (i + 1) (hunkLoop fuel chunks (i + 1)))
      by (apply IH; lia).
    destruct (Nat.ltb_spec (size chunk) 3) as [Hsmall|Hbig].
    { eapply policy_skip; eauto. }
    destruct (Nat.ltb_spec maxChangesPerChunk (size chunk)) as [Hlarge|Hfit].
    { eapply policy_large; eauto. }
    assert (Halone :
              (forall nextChunk, nth_error chunks (i + 1) = Some nextChunk ->
                                 maxChangesPerChunk < size chunk + size nextChunk) ->
              Policy chunks i (chunk :: hunkLoop fuel chunks (i + 1))).
    { intros Hnext. eapply policy_alone; eauto. }
    destruct (Nat.ltb_spec i (List.length chunks - 1)) as [Hmore|Hlast].
    + destruct (nth_error chunks (i + 1)) as [nextChunk|] eqn:Hn.
      * rewrite length_app.
        destruct (Nat.leb_spec (List.length (changes chunk)
                                + List.length (changes nextChunk))
                               maxChangesPerChunk) as [Hsum|Hsum].
        -- eapply policy_merge; eauto. apply IH. lia.
        -- apply Halone. intros n Hn'. inversion Hn'; subst. exact Hsum.
      * apply Halone. discriminate.
    + apply Halone. intros n Hn.
      assert (i + 1 < List.length chunks) by (apply nth_error_Some; congruence).
      lia.
Qed.

(** The number of iterations never exceeds the number of hunks: more
    fuel than that changes nothing. *)
Lemma hunkLoop_fuel chunks :
  forall fuel fuel' i,
    List.length chunks - i <= fuel ->
    List.length chunks - i <= fuel' ->
    hunkLoop fuel chunks i = hunkLoop fuel' chunks i.
Proof.
  induction fuel as [|fuel IH]; intros fuel' i H H'.
  - assert (Hnone : nth_error chunks i = None) by (apply nth_error_None; lia).
    destruct fuel'; simpl; [reflexivity | now rewrite Hnone].
  - destruct fuel' as [|fuel'].
    + assert (Hnone : nth_error chunks i = None) by (apply nth_error_None; lia).
      simpl. now rewrite Hnone.
    + simpl. destruct (nth_error chunks i) as [chunk|] eqn:Hi; [|reflexivity].
      assert (i < List.length chunks) by (apply nth_error_Some; congruence).
      rewrite (IH fuel' (i + 1)) by lia.
      rewrite (IH fuel' (i + 2)) by lia.
      reflexivity.
Qed.

Lemma groupChunks_policy file :
  3 < List.length (chunks file) ->
  Policy (chunks file) 0 (groupChunks file).
Proof.
  intros H. unfold groupChunks.
  destruct (Nat.leb_spec (List.length (chunks file)) 3); [lia|].
  apply hunkLoop_policy. lia.
Qed.

Lemma reviewUnits_live file :
  to file <> Some (lit "/dev/null") -> reviewUnits file = groupChunks file.
Proof.
  intros Hto. unfold reviewUnits, isDeleted.
  destruct (to file) as [p|]; [|reflexivity].
  destruct (string_eqb p (lit "/dev/null")) eqn:E; [|reflexivity].
  apply string_eqb_eq in E. congruence.
Qed.

(** Every unit of a walk that follows the policy is one hunk or two
    adjacent hunks. *)
Lemma policy_adjacent chunks i units :
  Policy chunks i units -> Forall (AdjacentOnly chunks) units.
Proof.
  induction 1; auto.
  - constructor; [left; eauto | assumption].
  - constructor; [right; eauto 10 | assumption].
  - constructor; [left; eauto | assumption].
Qed.

(** Every unit of such a walk starts with a hunk of at least three
    changed lines. *)
Lemma policy_leading_hunk chunks i units :
  Policy chunks i units ->
  Forall (fun unit =>
            exists chunk, In chunk chunks /\ 3 <= size chunk
                          /\ (unit = chunk \/ exists nextChunk, unit = combinedChunk chunk nextChunk))
         units.
Proof.
  induction 1; auto; constructor; auto; exists chunk;
    unfold maxChangesPerChunk in *;
    (split; [eapply nth_error_In; eauto | split; [lia|]]).
  - left; reflexivity.
  - right; eauto.
  - left; reflexivity.
Qed.

Lemma policy_within_ceiling file i units :
  Policy (chunks file) i units -> Forall (WithinCeiling file) units.
Proof.
  induction 1; auto; constructor; auto.
  - right. split; [eapply nth_error_In; eauto | assumption].
  - left. rewrite size_combinedChunk. assumption.
  - left. lia.
Qed.

Lemma size_wholeFile cs : size (wholeFile cs) = list_sum (map size cs).
Proof.
  unfold size; simpl. induction cs as [|c cs IH]; simpl; [reflexivity|].
  rewrite length_app, IH. reflexivity.
Qed.

(** The example of the specification: hunks of 1, 40, 120, 10 and 10
    changed lines give the second hunk alone, the third alone and the
    last two merged. *)
Example units_of_five_hunks :
  groupChunks Examples.fiveHunks
  = [Examples.hunk 50 40; Examples.hunk 200 120;
     combinedChunk (Examples.hunk 400 10) (Examples.hunk 500 10)].
Proof. vm_compute. reflexivity. Qed.

(** ** The claims on grouping *)

(** C1, at the input where the code departs from it: in a file of four
    hunks with 5, 1, 5 and 5 changed lines, the hunk of one line is
    reviewed, as the second half of the first unit. *)
Theorem small_hunk_merged_as_next :
  let file := Examples.mixedFile in
  let small := Examples.hunk 40 1 in
  3 < List.length (chunks file)
  /\ nth_error (chunks file) 1 = Some small
  /\ size small < 3
  /\ reviewUnits file =
       [combinedChunk (Examples.hunk 10 5) small;
        combinedChunk (Examples.hunk 70 5) (Examples.hunk 90 5)]
  /\ incl (changes small) (changes (combinedChunk (Examples.hunk 10 5) small)).
Proof.
  cbv zeta.
  split; [vm_compute; lia|].
  split; [reflexivity|].
  split; [vm_compute; lia|].
  split; [vm_compute; reflexivity|].
  intros c Hc. unfold combinedChunk, changes at 1. apply in_or_app. right. exact Hc.
Qed.

(** C2 fails on the whole-file path: the one unit of a file with two
    hunks of 60 changed lines has 120 of them and is no single hunk. *)
Lemma ceiling_exceeded_by_whole_file_unit :
  ~ (forall file unit, In unit (groupChunks file) -> WithinCeiling file unit).
Proof.
  intros claim.
  destruct (claim Examples.twoLargeHunks (wholeFile (chunks Examples.twoLargeHunks))
                  (or_introl eq_refl)) as [Hle | [Hin _]].
  - vm_compute in Hle. lia.
  - simpl in Hin. destruct Hin as [E | [E | []]];
      apply (f_equal size) in E; vm_compute in E; discriminate.
Qed.

(** C2, amended: in a file with more than three hunks every unit is
    within the ceiling of 100 changed lines, unless it is a single hunk
    that is above the ceiling by itself; in a file with at most three
    hunks the one unit has as many changed lines as the hunks have
    together, whatever that number is. *)
Theorem ceiling_on_hunk_path file unit :
  In unit (groupChunks file) ->
  (3 < List.length (chunks file) -> WithinCeiling file unit)
  /\ (List.length (chunks file) <= 3 ->
      size unit = list_sum (map size (chunks file))).
Proof.
  intros Hin. split; intros Hlen.
  - pose proof (policy_within_ceiling file 0 _ (groupChunks_policy file Hlen)) as Hall.
    rewrite Forall_forall in Hall. auto.
  - unfold groupChunks in Hin.
    destruct (Nat.leb_spec (List.length (chunks file)) 3); [|lia].
    destruct Hin as [<- | []]. apply size_wholeFile.
Qed.

Lemma ceiling_on_hunk_path_witness :
  let file := Examples.fiveHunks in
  let unit := combinedChunk (Examples.hunk 400 10) (Examples.hunk 500 10) in
  In unit (groupChunks file) /\ 3 < List.length (chunks file)
  /\ WithinCeiling file unit.
Proof.
  cbv zeta.
  assert (Hin : In (combinedChunk (Examples.hunk 400 10) (Examples.hunk 500 10))
                   (groupChunks Examples.fiveHunks)).
  { vm_compute. right; right; left. reflexivity. }
  assert (Hlen : 3 < List.length (chunks Examples.fiveHunks)) by (vm_compute; lia).
  split; [exact Hin | split; [exact Hlen |]].
  exact (proj1 (ceiling_on_hunk_path Examples.fiveHunks _ Hin) Hlen).
Defined.

(** C5: a file with at most three hunks that is not deleted is reviewed
    as exactly one unit, whose changed lines are those of all hunks in
    order and whose content is the hunk headers joined by newlines;
    neither threshold plays a part. *)
Theorem whole_file_is_one_unit file :
  List.length (chunks file) <= 3 ->
  to file <> Some (lit "/dev/null") ->
  exists unit,
    reviewUnits file = [unit]
    /\ changes unit = List.concat (map changes (chunks file))
    /\ content unit = join newline (map content (chunks file)).
Proof.
  intros Hlen Hto. exists (wholeFile (chunks file)).
  rewrite (reviewUnits_live file Hto). unfold groupChunks.
  destruct (Nat.leb_spec (List.length (chunks file)) 3); [|lia].
  repeat split. simpl. apply flat_map_concat_map.
Qed.

Lemma whole_file_is_one_unit_witness :
  exists unit,
    reviewUnits Examples.twoSmallHunks = [unit]
    /\ changes unit = List.concat (map changes (chunks Examples.twoSmallHunks))
    /\ content unit = join newline (map content (chunks Examples.twoSmallHunks)).
Proof.
  apply (whole_file_is_one_unit Examples.twoSmallHunks).
  - vm_compute. lia.
  - vm_compute. discriminate.
Defined.

(** C8: in a file with more than three hunks the units follow the
    policy of the specification from the first hunk on: a hunk is
    merged with the hunk right after it, only when both together stay
    within the ceiling, and the walk goes on two hunks further; so
    every unit is one hunk or two adjacent hunks. *)
Theorem merging_is_adjacent file :
  3 < List.length (chunks file) ->
  Policy (chunks file) 0 (groupChunks file)
  /\ Forall (AdjacentOnly (chunks file)) (groupChunks file).
Proof.
  intros Hlen.
  pose proof (groupChunks_policy file Hlen) as Hp.
  split; [exact Hp | eapply policy_adjacent; exact Hp].
Qed.

Lemma merging_is_adjacent_witness :
  Policy (chunks Examples.fiveHunks) 0 (groupChunks Examples.fiveHunks)
  /\ Forall (AdjacentOnly (chunks Examples.fiveHunks)) (groupChunks Examples.fiveHunks).
Proof.
  apply (merging_is_adjacent Examples.fiveHunks). vm_compute. lia.
Defined.

End GrouperFacts.

(* ================================================================== *)
(** * Properties of the runtime fragment                                *)
(* ================================================================== *)

Module JsFacts.

(** [slice(0, end)] keeps a prefix. *)
Lemma slice0_prefix {A} (xs : list A) stop :
  exists rest, xs = slice0 xs stop ++ rest.
Proof.
  unfold slice0. eexists. symmetry. apply firstn_skipn.
Qed.

Lemma slice0_NaN {A} (xs : list A) : slice0 xs NaN = [].
Proof. reflexivity. Qed.

Lemma slice0_nil {A} stop : slice0 (@nil A) stop = [].
Proof. unfold slice0. apply firstn_nil. Qed.

(** For an end that is not below zero it keeps at most that many. *)
Lemma slice0_length {A} (xs : list A) stop :
  le (Finite 0) stop = true ->
  le (ofNat (List.length (slice0 xs stop))) stop = true.
Proof.
  destruct stop as [|[|]|q]; simpl; try discriminate; try reflexivity.
  intros Hq. unfold slice0, truncate. rewrite Hq.
  apply Qle_bool_iff in Hq.
  assert (H0 : (0 <= Qfloor q)%Z).
  { change 0%Z with (Qfloor (inject_Z 0)) at 1.
    rewrite <- (Qfloor_Z 0) at 1. apply Qfloor_resp_le. exact Hq. }
  destruct (Z.ltb_spec (Qfloor q) 0) as [Hneg|_]; [lia|].
  unfold ofNat, ofZ. simpl. apply Qle_bool_iff.
  apply Qle_trans with (inject_Z (Qfloor q)); [|apply Qfloor_le].
  rewrite <- Zle_Qle. rewrite length_firstn. lia.
Qed.

(** What the conversions make of some texts. *)
Example number_of_texts :
  map (fun t => StringToNumber (lit t))
      ["12"; " 7 "; "1.5"; "1e3"; "0x10"; ""; "abc"; "12px"; "Infinity"; "-3"]%string
  = [ofZ 12; ofZ 7; Finite (3 # 2); ofZ 1000; ofZ 16; ofZ 0; NaN; NaN;
     Infinity false; ofZ (-3)].
Proof. reflexivity. Qed.

Example parseInt_of_texts :
  map (fun t => parseInt10 (lit t))
      ["10"; " 12abc"; "10.5"; "-1"; "abc"; "ten"; "+"]%string
  = [ofZ 10; ofZ 12; ofZ 10; ofZ (-1); NaN; NaN; NaN].
Proof. reflexivity. Qed.

Example one_tenth_is_rounded :
  toDouble (1 # 10) = Finite (3602879701896397 # 36028797018963968).
Proof. reflexivity. Qed.

Example parse_of_a_reply :
  JSON_parse (quoted "{'reviews': [{'lineNumber': 5, 'reviewComment': 'ab'}], 'n': [1.5, true, null]}")
  = Normal
      (VObject
         [(lit "reviews",
           VArray [VObject [(lit "lineNumber", VNumber (ofZ 5));
                            (lit "reviewComment", VString (lit "ab"))]]);
          (lit "n", VArray [VNumber (Finite (3 # 2)); VBool true; VNull])]).
Proof. reflexivity. Qed.

Example parse_of_broken_texts :
  map (fun t => JSON_parse (quoted t))
      ["{'reviews': oops"; ""; "[1,]"; "{'a' 1}"; "01"; "{} x"]%string
  = [Throw SyntaxError; Throw SyntaxError; Throw SyntaxError; Throw SyntaxError;
     Throw SyntaxError; Throw SyntaxError].
Proof. reflexivity. Qed.

(** Twelve comments and a maximum of 10: the first ten are kept; a
    maximum of -1 drops the last one. *)
Example slice_of_twelve :
  slice0 (seq 1 12) (ofZ 10) = seq 1 10
  /\ slice0 (seq 1 12) (ofZ (-1)) = seq 1 11
  /\ slice0 (seq 1 12) NaN = [].
Proof. repeat split. Qed.

(** Rounding never gives NaN, so [parseInt] gives NaN exactly for a
    text with no digit after its leading white space and sign. *)
Lemma toDouble_number q : isNaN (toDouble q) = false.
Proof.
  unfold toDouble, roundPositive.
  destruct (Qcompare q 0); [reflexivity | |];
    match goal with |- context [if ?b then Infinity false else _] => destruct b end;
    reflexivity.
Qed.

Lemma parseInt10_NaN s : parseInt10 s = NaN <-> leadingDigits s = [].
Proof.
  unfold parseInt10. destruct (leadingDigits s) as [|d ds]; simpl.
  - tauto.
  - split; [|discriminate]. intros H.
    pose proof (toDouble_number (inject_Z (digitsValue 10 (d :: ds)))) as Hn.
    destruct (fst (stripSign (trimStart s)));
      destruct (toDouble (inject_Z (digitsValue 10 (d :: ds)))); discriminate.
Qed.

(** The default input gives a maximum of 10. *)
Lemma parseInt10_default : parseInt10 (lit "10") = ofZ 10.
Proof. reflexivity. Qed.

(** A number that is not NaN is positive exactly when it is not at most
    zero. *)
Lemma positive_iff_not_le n :
  isNaN n || le n (Finite 0) = false <-> negb (isNaN n) && lt (Finite 0) n = true.
Proof.
  destruct n as [|[|]|q]; simpl;
    try destruct (Qle_bool q 0); simpl; split; intros H;
    try discriminate; reflexivity.
Qed.

End JsFacts.
Import JsFacts.

(* ================================================================== *)
(** * Properties of the review run                                      *)
(* ================================================================== *)

Module ReviewerFacts.

Local Open Scope run_scope.

(** ** Computations that create no review *)

Lemma NoReview_app xs ys : NoReview xs -> NoReview ys -> NoReview (xs ++ ys).
Proof. unfold NoReview. intros. apply Forall_app. now split. Qed.

Lemma quiet_ret {W A} (a : A) : Quiet (@ret W A a).
Proof.
  intros s r s' H. inversion H; subst. exists []. split.
  - now rewrite app_nil_r.
  - constructor.
Qed.

Lemma quiet_lift {W A} (o : Outcome A) : Quiet (@lift W A o).
Proof.
  intros s r s' H. inversion H; subst. exists []. split.
  - now rewrite app_nil_r.
  - constructor.
Qed.

Lemma quiet_bind {W A B} (m : M W A) (k : A -> M W B) :
  Quiet m -> (forall a, Quiet (k a)) -> Quiet (bind m k).
Proof.
  intros Hm Hk s r s' H. unfold bind in H.
  destruct (m s) as [[a|e] s1] eqn:E.
  - destruct (Hm _ _ _ E) as (x1 & E1 & Q1).
    destruct (Hk a _ _ _ H) as (x2 & E2 & Q2).
    exists (x1 ++ x2). split.
    + now rewrite E2, E1, app_assoc.
    + now apply NoReview_app.
  - inversion H; subst. eauto.
Qed.

Lemma quiet_tryCatch {W A} (m : M W A) (h : Error -> M W A) :
  Quiet m -> (forall e, Quiet (h e)) -> Quiet (tryCatch m h).
Proof.
  intros Hm Hh s r s' H. unfold tryCatch in H.
  destruct (m s) as [[a|e] s1] eqn:E.
  - inversion H; subst. eauto.
  - destruct (Hm _ _ _ E) as (x1 & E1 & Q1).
    destruct (Hh e _ _ _ H) as (x2 & E2 & Q2).
    exists (x1 ++ x2). split.
    + now rewrite E2, E1, app_assoc.
    + now apply NoReview_app.
Qed.

Lemma quiet_await {W A} (c : Call) (answer : W -> Outcome A * W) :
  isCreateReview c = false -> Quiet (await c answer).
Proof.
  intros Hc s r s' H. unfold await in H.
  destruct (answer (world s)) as [r0 w]. inversion H; subst. simpl.
  exists [c]. split; [reflexivity | now constructor].
Qed.

Lemma quiet_forEach {W A S} (f : A -> S -> M W S) xs :
  (forall x acc, Quiet (f x acc)) -> forall acc, Quiet (forEach f xs acc).
Proof.
  intros Hf. induction xs as [|x xs IH]; intros acc; simpl.
  - apply quiet_ret.
  - apply quiet_bind; auto.
Qed.

Section Facts.

Context {W : Type} (host : Host W).

(** ** getAIResponse never throws *)

Lemma getAIResponse_cases prompt s :
  getAIResponse host prompt s =
    (match fst (completions_create host (queryConfig host prompt) (world s)) with
     | Throw _ => Normal VNull
     | Normal response =>
         match andThen (replyText response) JSON_parse with
         | Throw _ => Normal VNull
         | Normal reply =>
             match getProp reply (lit "reviews") with
             | Throw _ => Normal VNull
             | Normal reviews => Normal reviews
             end
         end
     end,
     afterRequest host prompt s).
Proof.
  unfold getAIResponse, tryCatch, bind, await, lift, ret, afterRequest.
  destruct (completions_create host (queryConfig host prompt) (world s))
    as [[response|e] w]; simpl; [|reflexivity].
  destruct (replyText response) as [text|e]; simpl; [|reflexivity].
  destruct (JSON_parse text) as [reply|e]; simpl; [|reflexivity].
  destruct (getProp reply (lit "reviews")); reflexivity.
Qed.

Lemma getAIResponse_total prompt s :
  exists reviews,
    getAIResponse host prompt s = (Normal reviews, afterRequest host prompt s).
Proof.
  rewrite getAIResponse_cases.
  destruct (fst (completions_create host (queryConfig host prompt) (world s)));
    [|eauto].
  destruct (andThen (replyText a) JSON_parse); [|eauto].
  destruct (getProp a0 (lit "reviews")); eauto.
Qed.

(** A unit whose completion yields nothing truthy adds no comment and
    the run goes on in the state after the request. *)
Lemma reviewUnit_nothing prDetails file chunk comments s reviews :
  getAIResponse host (createPrompt file chunk prDetails) s
  = (Normal reviews, afterRequest host (createPrompt file chunk prDetails) s) ->
  ToBoolean reviews = false ->
  reviewUnit host prDetails file chunk comments s
  = (Normal comments, afterRequest host (createPrompt file chunk prDetails) s).
Proof.
  intros Hget Hfalsy. unfold reviewUnit, bind. rewrite Hget, Hfalsy. reflexivity.
Qed.

(** A rejected request, a reply that is no JSON text and a reply
    without [reviews] are three such cases. *)
Lemma reviewUnit_rejected prDetails file chunk comments s e w :
  completions_create host (queryConfig host (createPrompt file chunk prDetails)) (world s)
  = (Throw e, w) ->
  reviewUnit host prDetails file chunk comments s
  = (Normal comments, afterRequest host (createPrompt file chunk prDetails) s).
Proof.
  intros Hcall. apply (reviewUnit_nothing _ _ _ _ _ VNull); [|reflexivity].
  rewrite getAIResponse_cases, Hcall. reflexivity.
Qed.

Lemma reviewUnit_malformed prDetails file chunk comments s response w text e :
  completions_create host (queryConfig host (createPrompt file chunk prDetails)) (world s)
  = (Normal response, w) ->
  replyText response = Normal text ->
  JSON_parse text = Throw e ->
  reviewUnit host prDetails file chunk comments s
  = (Normal comments, afterRequest host (createPrompt file chunk prDetails) s).
Proof.
  intros Hcall Htext Hparse.
  apply (reviewUnit_nothing _ _ _ _ _ VNull); [|reflexivity].
  rewrite getAIResponse_cases, Hcall. simpl. rewrite Htext. simpl.
  rewrite Hparse. reflexivity.
Qed.

Lemma reviewUnit_no_reviews prDetails file chunk comments s response w text members :
  completions_create host (queryConfig host (createPrompt file chunk prDetails)) (world s)
  = (Normal response, w) ->
  replyText response = Normal text ->
  JSON_parse text = Normal (VObject members) ->
  getOwn (lit "reviews") members = None ->
  reviewUnit host prDetails file chunk comments s
  = (Normal comments, afterRequest host (createPrompt file chunk prDetails) s).
Proof.
  intros Hcall Htext Hparse Hnone.
  apply (reviewUnit_nothing _ _ _ _ _ VUndefined); [|reflexivity].
  rewrite getAIResponse_cases, Hcall. simpl. rewrite Htext. simpl.
  rewrite Hparse. simpl. rewrite Hnone. reflexivity.
Qed.

(** A unit whose suggestions make [createComment] throw ends
    [reviewUnit] with that exception, and the loops with it. *)
Lemma reviewUnit_throws prDetails file chunk comments s reviews e :
  getAIResponse host (createPrompt file chunk prDetails) s
  = (Normal reviews, afterRequest host (createPrompt file chunk prDetails) s) ->
  ToBoolean reviews = true ->
  createComment file chunk reviews = Throw e ->
  reviewUnit host prDetails file chunk comments s
  = (Throw e, afterRequest host (createPrompt file chunk prDetails) s).
Proof.
  intros Hget Htruthy Hthrow. unfold reviewUnit, bind, lift.
  rewrite Hget, Htruthy, Hthrow. reflexivity.
Qed.

Lemma forEach_throws {A S} (f : A -> S -> M W S) x xs acc s e s' :
  f x acc s = (Throw e, s') -> forEach f (x :: xs) acc s = (Throw e, s').
Proof. intros H. simpl. unfold bind. now rewrite H. Qed.

(** ** The loop reviews the units of the grouper, in order *)

Lemma reviewChunks_units prDetails file :
  forall fuel i comments s,
    reviewChunks host fuel prDetails file i comments s
    = forEach (reviewUnit host prDetails file) (hunkLoop fuel (chunks file) i) comments s.
Proof.
  induction fuel as [|fuel IH]; intros i comments s; simpl; [reflexivity|].
  destruct (nth_error (chunks file) i) as [chunk|]; [|reflexivity].
  destruct (size chunk <? 3); [apply IH|].
  assert (Halone :
            bind (reviewUnit host prDetails file chunk comments)
                 (fun comments' => reviewChunks host fuel prDetails file (i + 1) comments') s
            = forEach (reviewUnit host prDetails file)
                      (chunk :: hunkLoop fuel (chunks file) (i + 1)) comments s).
  { simpl. unfold bind.
    destruct (reviewUnit host prDetails file chunk comments s) as [[c|e] s1];
      [apply IH | reflexivity]. }
  destruct (maxChangesPerChunk <? size chunk); [exact Halone|].
  destruct (i <? List.length (chunks file) - 1); [|exact Halone].
  destruct (nth_error (chunks file) (i + 1)) as [nextChunk|]; [|exact Halone].
  destruct (List.length (changes chunk ++ changes nextChunk) <=? maxChangesPerChunk);
    [|exact Halone].
  simpl. unfold bind.
  destruct (reviewUnit host prDetails file (combinedChunk chunk nextChunk) comments s)
    as [[c|e] s1]; [apply IH | reflexivity].
Qed.

Lemma reviewFile_units prDetails file comments s :
  reviewFile host prDetails file comments s
  = forEach (reviewUnit host prDetails file) (reviewUnits file) comments s.
Proof.
  unfold reviewFile, reviewUnits, groupChunks.
  destruct (isDeleted file); [reflexivity|].
  destruct (List.length (chunks file) <=? 3).
  - simpl. unfold bind.
    destruct (reviewUnit host prDetails file (wholeFile (chunks file)) comments s)
      as [[c|e] s1]; reflexivity.
  - apply reviewChunks_units.
Qed.

(** ** No part of the run before the end creates a review *)

Ltac quiet :=
  repeat first
    [ apply quiet_ret
    | apply quiet_lift
    | apply quiet_await; reflexivity
    | apply quiet_bind; [|intros]
    | apply quiet_tryCatch; [|intros]
    | apply quiet_forEach; intros ].

Lemma quiet_getAIResponse prompt : Quiet (getAIResponse host prompt).
Proof. unfold getAIResponse. quiet. Qed.

Lemma quiet_reviewUnit prDetails file chunk comments :
  Quiet (reviewUnit host prDetails file chunk comments).
Proof.
  unfold reviewUnit. apply quiet_bind; [apply quiet_getAIResponse|].
  intros reviews. destruct (ToBoolean reviews); quiet.
Qed.

Lemma quiet_reviewFile prDetails file comments :
  Quiet (reviewFile host prDetails file comments).
Proof.
  intros s r s' H. rewrite reviewFile_units in H. revert s r s' H.
  apply quiet_forEach. intros. apply quiet_reviewUnit.
Qed.

Lemma quiet_accumulate files prDetails : Quiet (accumulate host files prDetails).
Proof.
  unfold accumulate. apply quiet_forEach. intros. apply quiet_reviewFile.
Qed.

Lemma quiet_analyzeCode files prDetails : Quiet (analyzeCode host files prDetails).
Proof.
  unfold analyzeCode. apply quiet_bind; [apply quiet_accumulate | intros; quiet].
Qed.

Lemma quiet_readEvent : Quiet (readEvent host).
Proof. unfold readEvent. quiet. Qed.

Lemma quiet_getPRDetails : Quiet (getPRDetails host).
Proof.
  unfold getPRDetails. apply quiet_bind; [apply quiet_readEvent | intros]. quiet.
Qed.

Lemma quiet_loadDiff : Quiet (loadDiff host).
Proof.
  unfold loadDiff. apply quiet_bind; [apply quiet_getPRDetails | intros pr].
  apply quiet_bind; [apply quiet_readEvent | intros event].
  apply quiet_bind; [apply quiet_lift | intros action].
  apply quiet_bind; [|intros; quiet].
  destruct (isSynchronize action); [quiet|].
  unfold getDiff. quiet.
Qed.

(** ** The cut and the end of the run *)

Lemma analyzeCode_cut files prDetails s :
  analyzeCode host files prDetails s =
    match accumulate host files prDetails s with
    | (Normal all, s') => (Normal (slice0 all (MAX_COMMENTS_PER_PR host)), s')
    | (Throw e, s') => (Throw e, s')
    end.
Proof.
  unfold analyzeCode, bind, ret.
  destruct (accumulate host files prDetails s) as [[all|e] s']; reflexivity.
Qed.

(** The calls of [main]: none creates a review, or the last one does,
    with the comments that [analyzeCode] returned, which are not none. *)
Lemma main_calls s r s' :
  main host s = (r, s') ->
  exists extra,
    calls s' = calls s ++ extra
    /\ (NoReview extra
        \/ exists prDetails diff s1 s2 comments before,
            loadDiff host s = (Normal (prDetails, diff), s1)
            /\ isEmpty (orEmpty diff) = false
            /\ analyzeCode host (filteredDiff host (orEmpty diff)) prDetails s1
               = (Normal comments, s2)
            /\ comments <> []
            /\ extra = before
                       ++ [CreateReview (owner prDetails) (repo prDetails)
                                        (pull_number prDetails) comments]
            /\ NoReview before).
Proof.
  unfold main, bind. intros H.
  destruct (loadDiff host s) as [[[prDetails diff]|e] s1] eqn:Hload.
  2:{ inversion H; subst.
      destruct (quiet_loadDiff _ _ _ Hload) as (x1 & E1 & Q1). eauto. }
  destruct (quiet_loadDiff _ _ _ Hload) as (x1 & E1 & Q1).
  cbn [fst snd] in H.
  destruct (isEmpty (orEmpty diff)) eqn:Hdiff.
  { inversion H; subst. eauto. }
  destruct (analyzeCode host (filteredDiff host (orEmpty diff)) prDetails s1)
    as [[comments|e] s2] eqn:Hrun;
    destruct (quiet_analyzeCode _ _ _ _ _ Hrun) as (x2 & E2 & Q2).
  2:{ inversion H; subst. exists (x1 ++ x2). split.
      - now rewrite E2, E1, app_assoc.
      - left. now apply NoReview_app. }
  destruct (Nat.ltb_spec 0 (List.length comments)) as [Hsome|Hnone].
  - unfold createReviewComment, await in H.
    destruct (pulls_createReview host _ _ _ _ (world s2)) as [r0 w].
    inversion H; subst. cbn [calls].
    eexists. split.
    + rewrite E2, E1, <- !app_assoc. reflexivity.
    + right. exists prDetails, diff, s1, s2, comments, (x1 ++ x2).
      repeat split; auto.
      * intros ->. simpl in Hsome. lia.
      * now rewrite app_assoc.
      * now apply NoReview_app.
  - inversion H; subst. exists (x1 ++ x2). split.
    + now rewrite E2, E1, app_assoc.
    + left. now apply NoReview_app.
Qed.

Lemma run_state w : snd (run host w) = snd (main host (initial w)).
Proof.
  unfold run. destruct (main host (initial w)) as [[u|e] s]; reflexivity.
Qed.

(** A review that the run creates carries what [analyzeCode] returned. *)
Lemma run_publishes w o r p comments :
  In (CreateReview o r p comments) (calls (snd (run host w))) ->
  comments <> []
  /\ exists prDetails diff s1 s2,
      loadDiff host (initial w) = (Normal (prDetails, diff), s1)
      /\ analyzeCode host (filteredDiff host (orEmpty diff)) prDetails s1
         = (Normal comments, s2).
Proof.
  rewrite run_state.
  destruct (main host (initial w)) as [res s'] eqn:Hmain. cbn [snd].
  destruct (main_calls _ _ _ Hmain) as (extra & E & Hcases).
  rewrite E. cbn [initial calls app]. intros Hin.
  destruct Hcases as [Hq | (pr & diff & s1 & s2 & cs & before & Hl & _ & Ha & Hne & -> & Hq)].
  - unfold NoReview in Hq. rewrite Forall_forall in Hq.
    apply Hq in Hin. discriminate.
  - apply in_app_or in Hin as [Hin | [Heq | []]].
    + unfold NoReview in Hq. rewrite Forall_forall in Hq.
      apply Hq in Hin. discriminate.
    + inversion Heq; subst. split; [assumption|].
      exists pr, diff, s1, s2. split; assumption.
Qed.

(** When the run has no review to create it ends normally. *)
Lemma main_nothing_to_publish s prDetails diff s1 s2 :
  loadDiff host s = (Normal (prDetails, diff), s1) ->
  isEmpty (orEmpty diff) = false ->
  analyzeCode host (filteredDiff host (orEmpty diff)) prDetails s1 = (Normal [], s2) ->
  main host s = (Normal tt, s2).
Proof.
  intros Hload Hdiff Hrun. unfold main, bind.
  rewrite Hload. cbn [fst snd]. rewrite Hdiff, Hrun. reflexivity.
Qed.

End Facts.

(** ** createComment *)

Lemma assemble_cons file suggestion suggestions :
  assemble file (suggestion :: suggestions)
  = assemble file [suggestion] ++ assemble file suggestions.
Proof.
  unfold assemble. destruct (to file) as [path|]; [|reflexivity].
  destruct (isEmpty path); [reflexivity|].
  simpl. destruct (survives suggestion); reflexivity.
Qed.

(** One suggestion: when the callback returns, it returns what the
    specification keeps of the suggestion. *)
Lemma commentOf_assemble file suggestion comments :
  commentOf file suggestion = Normal comments ->
  comments = assemble file [suggestion].
Proof.
  unfold commentOf, assemble.
  destruct (to file) as [path|]; [|congruence].
  destruct (isEmpty path); [congruence|].
  cbn [filter map].
  destruct (getProp suggestion (lit "lineNumber")) as [raw|] eqn:Hraw;
    cbn [andThen]; [|discriminate].
  assert (Hl : suggestedLine suggestion = ToNumber raw)
    by (unfold suggestedLine, field; now rewrite Hraw).
  unfold survives. rewrite Hl.
  destruct (isNaN (ToNumber raw) || le (ToNumber raw) (Finite 0)) eqn:Hline.
  - assert (Hp : positiveLine (ToNumber raw) = false).
    { destruct (positiveLine (ToNumber raw)) eqn:Hp; [|reflexivity].
      apply positive_iff_not_le in Hp. congruence. }
    rewrite Hp. cbn [andb map]. congruence.
  - apply positive_iff_not_le in Hline. fold (positiveLine (ToNumber raw)) in Hline.
    rewrite Hline. cbn [andb].
    destruct (getProp suggestion (lit "reviewComment")) as [text|] eqn:Htext;
      cbn [andThen]; [|discriminate].
    assert (Ht : suggestedText suggestion = text)
      by (unfold suggestedText, field; now rewrite Htext).
    destruct (getProp text (lit "length")) as [len|] eqn:Hlen;
      cbn [andThen]; [|discriminate].
    assert (Hs : tooShort (suggestedText suggestion) = lessThan len (Finite 20))
      by (unfold tooShort, field; now rewrite Ht, Hlen).
    rewrite Hs.
    destruct (lessThan len (Finite 20)); cbn [negb map];
      intros H; inversion H; subst; [reflexivity|].
    unfold inlineComment. now rewrite Hl.
Qed.

Lemma createComment_assemble file chunk suggestions :
  forall comments,
    createComment file chunk (VArray suggestions) = Normal comments ->
    comments = assemble file suggestions.
Proof.
  simpl. induction suggestions as [|r rs IH]; intros comments H; simpl in H.
  - inversion H. unfold assemble. destruct (to file) as [path|]; [|reflexivity].
    destruct (isEmpty path); reflexivity.
  - destruct (commentOf file r) as [ys|] eqn:Hr; simpl in H; [|discriminate].
    destruct (flatMap (commentOf file) rs) as [zs|]; simpl in H; [|discriminate].
    inversion H; subst. rewrite assemble_cons.
    rewrite (commentOf_assemble _ _ _ Hr), (IH zs eq_refl). reflexivity.
Qed.

(** A typed suggestion never makes the callback throw. *)
Lemma commentOf_typed file suggestion :
  TypedSuggestion suggestion ->
  commentOf file suggestion = Normal (assemble file [suggestion]).
Proof.
  intros (members & ln & text & -> & Hln & Htext).
  destruct (commentOf file (VObject members)) as [comments|e] eqn:H.
  - f_equal. now apply commentOf_assemble.
  - exfalso. unfold commentOf in H.
    destruct (to file) as [path|]; [|discriminate].
    destruct (isEmpty path); [discriminate|].
    simpl in H. rewrite Hln in H. simpl in H.
    destruct (isNaN (StringToNumber ln) || le (StringToNumber ln) (Finite 0));
      [discriminate|].
    rewrite Htext in H. simpl in H.
    change (string_eqb (lit "length") (lit "length")) with true in H. simpl in H.
    destruct (lessThan _ _) in H; discriminate.
Qed.

Lemma createComment_typed file chunk suggestions :
  Forall TypedSuggestion suggestions ->
  createComment file chunk (VArray suggestions) = Normal (assemble file suggestions).
Proof.
  simpl. induction 1 as [|r rs Hr _ IH]; simpl.
  - unfold assemble. destruct (to file) as [path|]; [|reflexivity].
    destruct (isEmpty path); reflexivity.
  - rewrite (commentOf_typed file r Hr). simpl. rewrite IH. simpl.
    now rewrite <- assemble_cons.
Qed.

Lemma survivor_valid path suggestion :
  survives suggestion = true -> ValidComment (inlineComment path suggestion).
Proof.
  unfold survives, positiveLine, tooShort, ValidComment; simpl.
  intros H. apply andb_prop in H as [Hline Htext].
  apply andb_prop in Hline as [Hnum Hpos].
  split; [now destruct (isNaN (suggestedLine suggestion))|].
  split; [exact Hpos|].
  intros text Hbody. rewrite Hbody in Htext.
  unfold field, lessThan in Htext. simpl in Htext.
  change (string_eqb (lit "length") (lit "length")) with true in Htext.
  simpl in Htext. apply negb_true_iff, negb_false_iff, Qle_bool_iff in Htext.
  change 20%Q with (inject_Z 20) in Htext. rewrite <- Zle_Qle in Htext. lia.
Qed.

Lemma assemble_valid file suggestions : Forall ValidComment (assemble file suggestions).
Proof.
  unfold assemble. destruct (to file) as [path|]; [|constructor].
  destruct (isEmpty path); [constructor|].
  apply Forall_map, Forall_forall. intros r Hr.
  apply filter_In in Hr as [_ Hr]. now apply survivor_valid.
Qed.

(** C6: whatever the suggestions are, when [createComment] returns, its
    comments are those of the suggestions that have a positive line
    number and a text of at least 20 code units, in the order of the
    suggestions: none is on a line that is no number or is not
    positive, none has a text shorter than 20.  On suggestions of the
    declared type it always returns. *)
Theorem assembler_drops_invalid file chunk suggestions :
  (forall comments,
      createComment file chunk (VArray suggestions) = Normal comments ->
      comments = assemble file suggestions /\ Forall ValidComment comments)
  /\ (Forall TypedSuggestion suggestions ->
      createComment file chunk (VArray suggestions)
      = Normal (assemble file suggestions)).
Proof.
  split.
  - intros comments H. apply createComment_assemble in H. subst.
    split; [reflexivity | apply assemble_valid].
  - apply createComment_typed.
Qed.

Lemma assembler_drops_invalid_witness :
  let file := Examples.twoSmallHunks in
  let chunk := wholeFile (chunks file) in
  let first := nth 0 Examples.fiveSuggestions VNull in
  let last := nth 4 Examples.fiveSuggestions VNull in
  createComment file chunk (VArray Examples.fiveSuggestions)
  = Normal [inlineComment (lit "src/small.ts") first;
            inlineComment (lit "src/small.ts") last]
  /\ Forall ValidComment [inlineComment (lit "src/small.ts") first;
                          inlineComment (lit "src/small.ts") last].
Proof.
  cbv zeta.
  assert (Hrun : createComment Examples.twoSmallHunks
                   (wholeFile (chunks Examples.twoSmallHunks))
                   (VArray Examples.fiveSuggestions)
                 = Normal [inlineComment (lit "src/small.ts")
                             (nth 0 Examples.fiveSuggestions VNull);
                           inlineComment (lit "src/small.ts")
                             (nth 4 Examples.fiveSuggestions VNull)])
    by (vm_compute; reflexivity).
  split; [exact Hrun|].
  exact (proj2 (proj1 (assembler_drops_invalid _ _ _) _ Hrun)).
Defined.

(** The comments depend on the file through its path only: neither the
    hunks of the file nor the unit are looked at. *)
Lemma createComment_path_only file file' chunk chunk' aiResponses :
  to file = to file' ->
  createComment file chunk aiResponses = createComment file' chunk' aiResponses.
Proof.
  intros Hto. destruct aiResponses; try reflexivity. simpl.
  induction xs as [|r rs IH]; simpl; [reflexivity|].
  rewrite IH. unfold commentOf. rewrite Hto. reflexivity.
Qed.

(** C4, at an input where the code departs from it: for a file whose
    diff shows the new lines 1 to 5 and 30 to 33, a suggestion on line
    1.5 and a suggestion on line 100000 both become comments. *)
Theorem stray_lines_are_emitted :
  let file := Examples.twoSmallHunks in
  exists first second,
    createComment file (wholeFile (chunks file)) Examples.strayLines
    = Normal [first; second]
    /\ line first = Finite (3 # 2)
    /\ isInteger (line first) = false
    /\ line second = ofZ 100000
    /\ newLines file = [1; 2; 3; 4; 5; 30; 31; 32; 33]%N
    /\ ~ In 100000%N (newLines file).
Proof.
  cbv zeta. do 2 eexists.
  split; [vm_compute; reflexivity|].
  split; [reflexivity|].
  split; [reflexivity|].
  split; [reflexivity|].
  split; [reflexivity|].
  vm_compute. intuition discriminate.
Qed.

(** ** The claims on the run *)

(** C3, at an input where the code departs from it: two files with
    three units in all; the reply for the first unit is JSON text whose
    only suggestion has a line number and no [reviewComment].  The
    completion step returns the suggestions, [createComment] throws on
    them, nothing catches it: the run ends with exit code 1 after one
    completion request and without a review. *)
Theorem incomplete_suggestion_aborts_run :
  let files := [Examples.twoSmallHunks; Examples.mixedFile] in
  let host := Examples.scripted "10" files in
  let w := [Examples.incompleteReply; Examples.threeSuggestions;
            Examples.threeSuggestions] in
  let unit := wholeFile (chunks Examples.twoSmallHunks) in
  let suggestions := VArray [VObject [(lit "lineNumber", VNumber (ofZ 5))]] in
  List.length (flat_map reviewUnits files) = 3
  /\ fst (getAIResponse host
            (createPrompt Examples.twoSmallHunks unit Examples.samplePR) (initial w))
     = Normal suggestions
  /\ createComment Examples.twoSmallHunks unit suggestions = Throw TypeError
  /\ fst (analyzeCode host files Examples.samplePR (initial w)) = Throw TypeError
  /\ fst (run host w) = 1%Z
  /\ List.length (filter Examples.isCompletion (calls (snd (run host w)))) = 1
  /\ NoReview (calls (snd (run host w))).
Proof.
  cbv zeta.
  split; [reflexivity|].
  split; [vm_compute; reflexivity|].
  split; [reflexivity|].
  split; [vm_compute; reflexivity|].
  split; [vm_compute; reflexivity|].
  split; [vm_compute; reflexivity|].
  vm_compute. repeat constructor.
Qed.

(** C7 fails for a maximum below zero: with the input -1 and three
    accumulated comments the review has two comments. *)
Lemma negative_maximum_is_exceeded :
  let host := Examples.scripted "-1" [Examples.twoSmallHunks] in
  MAX_COMMENTS_PER_PR host = ofZ (-1)
  /\ (exists all s,
        accumulate host [Examples.twoSmallHunks] Examples.samplePR
                   (snd (loadDiff host (initial [Examples.threeSuggestions])))
        = (Normal all, s)
        /\ List.length all = 3)
  /\ exists o r p published,
      In (CreateReview o r p published)
         (calls (snd (run host [Examples.threeSuggestions])))
      /\ List.length published = 2
      /\ le (ofNat (List.length published)) (MAX_COMMENTS_PER_PR host) = false.
Proof.
  cbv zeta. split; [reflexivity|]. split.
  - do 2 eexists. split; [vm_compute; reflexivity | reflexivity].
  - do 4 eexists. split; [|split].
    + vm_compute. do 5 right. left. reflexivity.
    + reflexivity.
    + reflexivity.
Qed.

Section RunClaims.

Context {W : Type} (host : Host W).

(** C7, amended: what [analyzeCode] returns, and so what a review that
    the run creates carries, is a prefix of the comments accumulated
    over all files, in their order; when the configured maximum is a
    number that is not below zero, 10 by default, it has at most that
    many comments. *)
Theorem published_is_prefix :
  (getInput host (lit "MAX_COMMENTS_PER_PR") = [] -> MAX_COMMENTS_PER_PR host = ofZ 10)
  /\ (forall files prDetails s all s',
        accumulate host files prDetails s = (Normal all, s') ->
        exists published rest,
          analyzeCode host files prDetails s = (Normal published, s')
          /\ all = published ++ rest
          /\ (le (Finite 0) (MAX_COMMENTS_PER_PR host) = true ->
              le (ofNat (List.length published)) (MAX_COMMENTS_PER_PR host) = true))
  /\ (forall w o r p published,
        In (CreateReview o r p published) (calls (snd (run host w))) ->
        exists prDetails diff s1 s2 all rest,
          loadDiff host (initial w) = (Normal (prDetails, diff), s1)
          /\ accumulate host (filteredDiff host (orEmpty diff)) prDetails s1
             = (Normal all, s2)
          /\ all = published ++ rest
          /\ (le (Finite 0) (MAX_COMMENTS_PER_PR host) = true ->
              le (ofNat (List.length published)) (MAX_COMMENTS_PER_PR host) = true)).
Proof.
  split; [|split].
  - intros Hin. unfold MAX_COMMENTS_PER_PR. rewrite Hin. reflexivity.
  - intros files prDetails s all s' Hall.
    destruct (slice0_prefix all (MAX_COMMENTS_PER_PR host)) as [rest Hrest].
    exists (slice0 all (MAX_COMMENTS_PER_PR host)), rest.
    split; [now rewrite analyzeCode_cut, Hall|].
    split; [exact Hrest | apply slice0_length].
  - intros w o r p published Hin.
    apply run_publishes in Hin as (_ & prDetails & diff & s1 & s2 & Hload & Hrun).
    rewrite analyzeCode_cut in Hrun.
    destruct (accumulate host (filteredDiff host (orEmpty diff)) prDetails s1)
      as [[all|e] s3] eqn:Hall; [|discriminate].
    inversion Hrun; subst.
    destruct (slice0_prefix all (MAX_COMMENTS_PER_PR host)) as [rest Hrest].
    exists prDetails, diff, s1, s2, all, rest.
    repeat split; auto. apply slice0_length.
Qed.

(** C9: a review that the run creates has at least one comment; when
    no comment was accumulated over the files, the run ends with exit
    code 0 in the state it had after the last file, among whose calls
    there is no review creation; and so it does, in the state after
    loading, when there is no diff to process. *)
Theorem no_review_for_no_comments (w : W) :
  (forall o r p comments,
      In (CreateReview o r p comments) (calls (snd (run host w))) -> comments <> [])
  /\ (forall prDetails diff s1 s2,
        loadDiff host (initial w) = (Normal (prDetails, diff), s1) ->
        isEmpty (orEmpty diff) = false ->
        accumulate host (filteredDiff host (orEmpty diff)) prDetails s1
        = (Normal [], s2) ->
        run host w = (0%Z, s2) /\ NoReview (calls s2))
  /\ (forall prDetails diff s1,
        loadDiff host (initial w) = (Normal (prDetails, diff), s1) ->
        isEmpty (orEmpty diff) = true ->
        run host w = (0%Z, s1) /\ NoReview (calls s1)).
Proof.
  split; [|split].
  3:{ intros prDetails diff s1 Hload Hdiff. split.
      - unfold run, main, bind. rewrite Hload. cbn [fst snd]. now rewrite Hdiff.
      - destruct (quiet_loadDiff host _ _ _ Hload) as (x1 & E1 & Q1).
        now rewrite E1. }
  - intros o r p comments Hin. now apply run_publishes in Hin.
  - intros prDetails diff s1 s2 Hload Hdiff Hall.
    assert (Hrun : analyzeCode host (filteredDiff host (orEmpty diff)) prDetails s1
                   = (Normal [], s2))
      by (now rewrite analyzeCode_cut, Hall, slice0_nil).
    split.
    + unfold run. now rewrite (main_nothing_to_publish host _ _ _ _ _ Hload Hdiff Hrun).
    + destruct (quiet_loadDiff host _ _ _ Hload) as (x1 & E1 & Q1).
      destruct (quiet_accumulate host _ _ _ _ _ Hall) as (x2 & E2 & Q2).
      rewrite E2, E1. cbn [initial calls app]. now apply NoReview_app.
Qed.

(** C10: when the input for the maximum is not empty and [parseInt]
    makes NaN of it, the maximum is NaN, [analyzeCode] returns no
    comment whatever was accumulated, and no run creates a review. *)
Theorem unparsable_maximum_publishes_nothing :
  getInput host (lit "MAX_COMMENTS_PER_PR") <> [] ->
  parseInt10 (getInput host (lit "MAX_COMMENTS_PER_PR")) = NaN ->
  MAX_COMMENTS_PER_PR host = NaN
  /\ (forall files prDetails s all s',
        accumulate host files prDetails s = (Normal all, s') ->
        analyzeCode host files prDetails s = (Normal [], s'))
  /\ (forall w, NoReview (calls (snd (run host w)))).
Proof.
  intros Hinput Hparse.
  assert (Hmax : MAX_COMMENTS_PER_PR host = NaN).
  { unfold MAX_COMMENTS_PER_PR.
    destruct (getInput host (lit "MAX_COMMENTS_PER_PR")); [congruence | exact Hparse]. }
  split; [exact Hmax|]. split.
  - intros files prDetails s all s' Hall.
    now rewrite analyzeCode_cut, Hall, Hmax.
  - intros w. rewrite run_state.
    destruct (main host (initial w)) as [res s'] eqn:Hmain. cbn [snd].
    destruct (main_calls host _ _ _ Hmain) as (extra & E & Hcases).
    rewrite E. cbn [initial calls app].
    destruct Hcases as [Hq | (pr & diff & s1 & s2 & cs & before & _ & _ & Ha & Hne & _)];
      [exact Hq|].
    rewrite analyzeCode_cut, Hmax in Ha.
    destruct (accumulate host (filteredDiff host (orEmpty diff)) pr s1) as [[all|e] s3];
      [|discriminate].
    inversion Ha; subst. now elim Hne.
Qed.

End RunClaims.

Lemma published_is_prefix_witness :
  let files := [Examples.twoSmallHunks] in
  let host := Examples.scripted "2" files in
  let s := snd (loadDiff host (initial [Examples.threeSuggestions])) in
  exists all published rest s',
    accumulate host files Examples.samplePR s = (Normal all, s')
    /\ List.length all = 3
    /\ analyzeCode host files Examples.samplePR s = (Normal published, s')
    /\ all = published ++ rest
    /\ le (ofNat (List.length published)) (MAX_COMMENTS_PER_PR host) = true.
Proof.
  cbv zeta.
  assert (H : exists all s',
             accumulate (Examples.scripted "2" [Examples.twoSmallHunks])
               [Examples.twoSmallHunks] Examples.samplePR
               (snd (loadDiff (Examples.scripted "2" [Examples.twoSmallHunks])
                              (initial [Examples.threeSuggestions])))
             = (Normal all, s')
             /\ List.length all = 3).
  { do 2 eexists. split; [vm_compute; reflexivity | reflexivity]. }
  destruct H as (all & s' & Hall & Hlen).
  destruct (proj1 (proj2 (published_is_prefix
                            (Examples.scripted "2" [Examples.twoSmallHunks])))
                  _ _ _ _ _ Hall)
    as (published & rest & Hrun & Hrest & Hle).
  exists all, published, rest, s'.
  repeat split; auto.
Defined.

Lemma no_review_for_no_comments_witness :
  let host := Examples.scripted "10" [Examples.twoSmallHunks] in
  let w := [Examples.nothingFound] in
  fst (run host w) = 0%Z /\ NoReview (calls (snd (run host w))).
Proof.
  cbv zeta.
  set (host := Examples.scripted "10" [Examples.twoSmallHunks]).
  set (w := [Examples.nothingFound]).
  set (diff := Some (lit "diff --git a/f b/f")).
  assert (Hload : loadDiff host (initial w)
                  = (Normal (Examples.samplePR, diff), snd (loadDiff host (initial w))))
    by (vm_compute; reflexivity).
  assert (Hdiff : isEmpty (orEmpty diff) = false) by reflexivity.
  assert (Hall : accumulate host (filteredDiff host (orEmpty diff)) Examples.samplePR
                   (snd (loadDiff host (initial w)))
                 = (Normal [],
                    snd (accumulate host (filteredDiff host (orEmpty diff))
                           Examples.samplePR (snd (loadDiff host (initial w))))))
    by (vm_compute; reflexivity).
  destruct (proj1 (proj2 (no_review_for_no_comments host w)) _ _ _ _ Hload Hdiff Hall)
    as [Hrun Hquiet].
  rewrite Hrun. split; [reflexivity | exact Hquiet].
Defined.

Lemma unparsable_maximum_publishes_nothing_witness :
  let host := Examples.scripted "abc" [Examples.twoSmallHunks] in
  MAX_COMMENTS_PER_PR host = NaN
  /\ NoReview (calls (snd (run host [Examples.threeSuggestions]))).
Proof.
  cbv zeta.
  assert (Hinput : getInput (Examples.scripted "abc" [Examples.twoSmallHunks])
                            (lit "MAX_COMMENTS_PER_PR") <> [])
    by (vm_compute; discriminate).
  assert (Hparse : parseInt10
                     (getInput (Examples.scripted "abc" [Examples.twoSmallHunks])
                               (lit "MAX_COMMENTS_PER_PR")) = NaN)
    by reflexivity.
  destruct (unparsable_maximum_publishes_nothing
              (Examples.scripted "abc" [Examples.twoSmallHunks]) Hinput Hparse)
    as (Hmax & _ & Hquiet).
  split; [exact Hmax | apply Hquiet].
Defined.

End ReviewerFacts.

(* ================================================================== *)
(** * Further properties of the grouping                                *)
(* ================================================================== *)

Module GrouperMore.

Import GrouperFacts.











Lemma hunkLoop_all_small chunks :
  Forall (fun chunk => size chunk < 3) chunks ->
  forall fuel i, hunkLoop fuel chunks i = [].
Proof.
  intros Hall. rewrite Forall_forall in Hall.
  induction fuel as [|fuel IH]; intros i; simpl; [reflexivity|].
  destruct (nth_error chunks i) as [chunk|] eqn:Hi; [|reflexivity].
  apply nth_error_In in Hi. apply Hall in Hi.
  destruct (Nat.ltb_spec (size chunk) 3); [apply IH | lia].
Qed.

(** X4: a file with more than three hunks, all of fewer than three
    changed lines, has no unit: it is passed over without a request. *)
Theorem only_small_hunks_no_unit {W} (host : Host W) prDetails file comments s :
  3 < List.length (chunks file) ->
  Forall (fun chunk => size chunk < 3) (chunks file) ->
  groupChunks file = []
  /\ reviewFile host prDetails file comments s = (Normal comments, s).
Proof.
  intros Hlen Hall.
  assert (Hnone : groupChunks file = []).
  { unfold groupChunks. destruct (Nat.leb_spec (List.length (chunks file)) 3); [lia|].
    now apply hunkLoop_all_small. }
  split; [exact Hnone|].
  rewrite ReviewerFacts.reviewFile_units. unfold reviewUnits.
  rewrite Hnone. destruct (isDeleted file); reflexivity.
Qed.

Lemma only_small_hunks_no_unit_witness :
  let host := Examples.scripted "10" [tinyHunks] in
  groupChunks tinyHunks = []
  /\ reviewFile host Examples.samplePR tinyHunks [] (initial [Examples.threeSuggestions])
     = (Normal [], initial [Examples.threeSuggestions]).
Proof.
  cbv zeta. apply only_small_hunks_no_unit.
  - vm_compute. lia.
  - vm_compute. repeat constructor.
Defined.



End GrouperMore.

(* ================================================================== *)
(** * Further properties of the review run                              *)
(* ================================================================== *)

Module ReviewerMore.

Import ReviewerFacts.
Local Open Scope run_scope.

(** ** White space *)

Lemma trimStart_blank s : forallb isWhiteSpace s = true -> trimStart s = [].
Proof.
  induction s as [|c s IH]; simpl; [reflexivity|].
  intros H. apply andb_prop in H as [Hc Hs]. rewrite Hc. auto.
Qed.

Lemma trim_blank s : forallb isWhiteSpace s = true -> trim s = [].
Proof. intros H. unfold trim, trimEnd. now rewrite (trimStart_blank s H). Qed.

Section More.

Context {W : Type} (host : Host W).

(** ** The completion step *)

(** X6: [getAIResponse] never throws, whatever the service answers,
    and makes exactly one completion request, for the prompt it was
    given. *)
Theorem completion_step_never_throws prompt s :
  exists reviews s',
    getAIResponse host prompt s = (Normal reviews, s')
    /\ calls s' = calls s ++ [CompletionsCreate (queryConfig host prompt)].
Proof.
  destruct (getAIResponse_total host prompt s) as [reviews H].
  exists reviews, (afterRequest host prompt s). split; [exact H | reflexivity].
Qed.

Lemma replyText_blank response choice others :
  choices response = choice :: others ->
  BlankChoice choice ->
  replyText response = Normal (lit "{}").
Proof.
  intros Hc Hblank. unfold replyText. rewrite Hc.
  destruct Hblank as [-> | [-> | (text & -> & Hws)]]; try reflexivity.
  now rewrite (trim_blank text Hws).
Qed.

(** X7: when the first choice of the reply has no message, no content
    or only white space as content, the text parsed is the empty
    object: the unit adds no comment and the run goes on. *)
Theorem blank_reply_adds_no_comment prDetails file chunk comments s response w choice others :
  completions_create host (queryConfig host (createPrompt file chunk prDetails)) (world s)
  = (Normal response, w) ->
  choices response = choice :: others ->
  BlankChoice choice ->
  getAIResponse host (createPrompt file chunk prDetails) s
  = (Normal VUndefined, afterRequest host (createPrompt file chunk prDetails) s)
  /\ reviewUnit host prDetails file chunk comments s
     = (Normal comments, afterRequest host (createPrompt file chunk prDetails) s).
Proof.
  intros Hcall Hc Hblank.
  assert (Hget : getAIResponse host (createPrompt file chunk prDetails) s
                 = (Normal VUndefined,
                    afterRequest host (createPrompt file chunk prDetails) s)).
  { rewrite getAIResponse_cases, Hcall. cbn [fst].
    now rewrite (replyText_blank _ _ _ Hc Hblank). }
  split; [exact Hget|].
  now apply (reviewUnit_nothing host _ _ _ _ _ VUndefined).
Qed.

(** X8: a rejected request, a reply with no choice and a reply whose
    text is no JSON text all leave the comments as they were: the unit
    adds none and the run goes on in the state after the request. *)
Theorem failed_completion_adds_no_comment prDetails file chunk comments s :
  let create :=
    completions_create host (queryConfig host (createPrompt file chunk prDetails))
                       (world s) in
  (exists e, fst create = Throw e)
  \/ (exists response,
        fst create = Normal response
        /\ (choices response = []
            \/ exists text e, replyText response = Normal text
                              /\ JSON_parse text = Throw e)) ->
  reviewUnit host prDetails file chunk comments s
  = (Normal comments, afterRequest host (createPrompt file chunk prDetails) s).
Proof.
  cbv zeta. intros H.
  apply (reviewUnit_nothing host _ _ _ _ _ VNull); [|reflexivity].
  rewrite getAIResponse_cases.
  destruct H as [[e He] | (response & Hr & [Hnone | (text & e & Ht & Hp)])].
  - now rewrite He.
  - rewrite Hr. unfold replyText. now rewrite Hnone.
  - rewrite Hr, Ht. simpl. now rewrite Hp.
Qed.

(** X9: a reply whose [reviews] is truthy and no array (a number, a
    text, an object) makes the unit throw a TypeError, which ends the
    loops of [analyzeCode]. *)
Theorem reviews_of_wrong_kind_abort prDetails file chunk comments s reviews :
  getAIResponse host (createPrompt file chunk prDetails) s
  = (Normal reviews, afterRequest host (createPrompt file chunk prDetails) s) ->
  ToBoolean reviews = true ->
  (forall suggestions, reviews <> VArray suggestions) ->
  reviewUnit host prDetails file chunk comments s
  = (Throw TypeError, afterRequest host (createPrompt file chunk prDetails) s).
Proof.
  intros Hget Htruthy Hkind.
  apply (reviewUnit_throws host _ _ _ _ _ reviews); auto.
  destruct reviews; try reflexivity. now elim (Hkind xs).
Qed.

Lemma reviewUnit_state prDetails file chunk comments s r s' :
  reviewUnit host prDetails file chunk comments s = (r, s') ->
  s' = afterRequest host (createPrompt file chunk prDetails) s.
Proof.
  unfold reviewUnit, bind, lift, ret.
  destruct (getAIResponse_total host (createPrompt file chunk prDetails) s)
    as [reviews ->].
  destruct (ToBoolean reviews); [|congruence].
  destruct (createComment file chunk reviews); congruence.
Qed.

Lemma forEach_units_calls prDetails file units :
  forall comments s comments' s',
    forEach (reviewUnit host prDetails file) units comments s = (Normal comments', s') ->
    calls s' = calls s ++ requestsFor host prDetails file units.
Proof.
  induction units as [|u us IH]; intros comments s comments' s' H; simpl in H.
  - inversion H; subst. simpl. now rewrite app_nil_r.
  - unfold bind in H.
    destruct (reviewUnit host prDetails file u comments s) as [[c|e] s1] eqn:Hu;
      [|discriminate].
    apply reviewUnit_state in Hu. subst s1.
    rewrite (IH _ _ _ _ H). simpl. now rewrite <- app_assoc.
Qed.

Lemma forEach_files_calls prDetails files :
  forall comments s all s',
    forEach (reviewFile host prDetails) files comments s = (Normal all, s') ->
    calls s' = calls s
               ++ flat_map (fun file => requestsFor host prDetails file (reviewUnits file))
                           files.
Proof.
  induction files as [|f fs IH]; intros comments s all s' H; simpl in H.
  - inversion H; subst. simpl. now rewrite app_nil_r.
  - unfold bind in H.
    destruct (reviewFile host prDetails f comments s) as [[c|e] s1] eqn:Hf;
      [|discriminate].
    rewrite reviewFile_units in Hf. apply forEach_units_calls in Hf.
    rewrite (IH _ _ _ _ H), Hf. simpl. now rewrite <- app_assoc.
Qed.

(** X10: when [analyzeCode] returns, its calls are exactly one
    completion request per unit, in the order of the files and of the
    units of each file; a deleted file contributes none. *)
Theorem one_request_per_unit prDetails files s published s' :
  analyzeCode host files prDetails s = (Normal published, s') ->
  calls s' = calls s
             ++ flat_map (fun file => requestsFor host prDetails file (reviewUnits file))
                         files.
Proof.
  rewrite analyzeCode_cut.
  destruct (accumulate host files prDetails s) as [[all|e] s1] eqn:Hall; [|discriminate].
  intros H. inversion H; subst.
  now apply (forEach_files_calls prDetails files [] s all).
Qed.

End More.

(** ** createComment *)

(** X11: for a file with no destination path, undefined or empty,
    [createComment] returns no comment for every array of suggestions
    and never throws, not even on a suggestion that is null. *)
Theorem no_path_no_comment file chunk suggestions :
  to file = None \/ to file = Some [] ->
  createComment file chunk (VArray suggestions) = Normal [].
Proof.
  intros H. simpl.
  assert (Hone : forall r, commentOf file r = Normal [])
    by (intros r; unfold commentOf; destruct H as [-> | ->]; reflexivity).
  induction suggestions as [|r rs IH]; simpl; [reflexivity|].
  now rewrite Hone, IH.
Qed.

Lemma createComment_paths file chunk suggestions comments :
  createComment file chunk (VArray suggestions) = Normal comments ->
  Forall (fun c => to file = Some (path c)) comments
  /\ List.length comments <= List.length suggestions.
Proof.
  intros H. apply createComment_assemble in H. subst. unfold assemble.
  destruct (to file) as [p|]; [|split; [constructor | simpl; lia]].
  destruct (isEmpty p); [split; [constructor | simpl; lia]|].
  split.
  - apply Forall_map, Forall_forall. reflexivity.
  - rewrite length_map. apply filter_length_le.
Qed.

(** X12: the comments that [createComment] returns all carry the
    destination path of the file, and are at most as many as the
    suggestions. *)
Theorem comments_carry_the_path file chunk suggestions comments :
  createComment file chunk (VArray suggestions) = Normal comments ->
  Forall (fun c => to file = Some (path c)) comments
  /\ List.length comments <= List.length suggestions.
Proof. apply createComment_paths. Qed.

(** X13: [createComment] goes through the suggestions one by one: the
    comments for two arrays in a row are the comments for the first
    followed by the comments for the second. *)
Theorem comments_of_appended_suggestions file chunk xs ys a b :
  createComment file chunk (VArray xs) = Normal a ->
  createComment file chunk (VArray ys) = Normal b ->
  createComment file chunk (VArray (xs ++ ys)) = Normal (a ++ b).
Proof.
  simpl. revert a. induction xs as [|x xs IH]; intros a Ha Hb; simpl in *.
  - inversion Ha; subst. exact Hb.
  - destruct (commentOf file x) as [c|]; simpl in *; [|discriminate].
    destruct (flatMap (commentOf file) xs) as [cs|]; simpl in *; [|discriminate].
    inversion Ha; subst. rewrite (IH cs eq_refl Hb). simpl.
    now rewrite app_assoc.
Qed.

(** ** The accumulated comments *)

Section Accumulated.

Context {W : Type} (host : Host W).

Lemma reviewUnit_appends prDetails file chunk comments s comments' s' :
  reviewUnit host prDetails file chunk comments s = (Normal comments', s') ->
  exists new, comments' = comments ++ new
              /\ Forall (fun c => to file = Some (path c)) new.
Proof.
  unfold reviewUnit, bind, lift, ret.
  destruct (getAIResponse_total host (createPrompt file chunk prDetails) s)
    as [reviews ->].
  destruct (ToBoolean reviews).
  - destruct (createComment file chunk reviews) as [new|] eqn:Hnew; [|discriminate].
    intros H. inversion H; subst. exists new. split; [reflexivity|].
    destruct reviews; try discriminate.
    now apply (createComment_paths file chunk xs).
  - intros H. inversion H; subst. exists []. split; [now rewrite app_nil_r | constructor].
Qed.

Lemma reviewFile_appends prDetails file comments s comments' s' :
  reviewFile host prDetails file comments s = (Normal comments', s') ->
  exists new, comments' = comments ++ new
              /\ Forall (fun c => to file = Some (path c)) new.
Proof.
  rewrite reviewFile_units. generalize (reviewUnits file) as units.
  intros units. revert comments s.
  induction units as [|u us IH]; intros comments s H; simpl in H.
  - inversion H; subst. exists []. split; [now rewrite app_nil_r | constructor].
  - unfold bind in H.
    destruct (reviewUnit host prDetails file u comments s) as [[c|e] s1] eqn:Hu;
      [|discriminate].
    apply reviewUnit_appends in Hu as (n1 & -> & F1).
    apply IH in H as (n2 & -> & F2).
    exists (n1 ++ n2). split; [now rewrite app_assoc | now apply Forall_app].
Qed.

Lemma forEach_files_groups prDetails files :
  forall comments s all s',
    forEach (reviewFile host prDetails) files comments s = (Normal all, s') ->
    exists groups,
      all = comments ++ List.concat groups
      /\ Forall2 (fun file group => Forall (fun c => to file = Some (path c)) group)
                 files groups.
Proof.
  induction files as [|f fs IH]; intros comments s all s' H; simpl in H.
  - inversion H; subst. exists []. split; [simpl; now rewrite app_nil_r | constructor].
  - unfold bind in H.
    destruct (reviewFile host prDetails f comments s) as [[c|e] s1] eqn:Hf;
      [|discriminate].
    apply reviewFile_appends in Hf as (n1 & -> & F1).
    apply IH in H as (groups & -> & F2).
    exists (n1 :: groups). split; [simpl; now rewrite app_assoc | now constructor].
Qed.

(** X14: the comments accumulated over the files come in groups, one
    group per file in the order of the files, and every comment of a
    group carries the destination path of its file: processing a file
    only appends to what was accumulated before. *)
Theorem comments_follow_files prDetails files s all s' :
  accumulate host files prDetails s = (Normal all, s') ->
  exists groups,
    all = List.concat groups
    /\ Forall2 (fun file group => Forall (fun c => to file = Some (path c)) group)
               files groups.
Proof.
  intros H. apply forEach_files_groups in H as (groups & -> & F).
  exists groups. split; [reflexivity | exact F].
Qed.

(** X15: a diff of deleted files only is passed over: no request is
    made and no comment is accumulated. *)
Theorem deleted_files_are_passed_over prDetails files s :
  Forall (fun file => to file = Some (lit "/dev/null")) files ->
  accumulate host files prDetails s = (Normal [], s).
Proof.
  intros Hall. unfold accumulate. generalize (@nil Comment) as comments.
  induction Hall as [|f fs Hf _ IH]; intros comments; simpl; [reflexivity|].
  unfold bind, reviewFile, isDeleted. rewrite Hf.
  change (string_eqb (lit "/dev/null") (lit "/dev/null")) with true.
  cbn. apply IH.
Qed.

End Accumulated.

(** ** The cut *)

Lemma slice0_all {A} (xs : list A) stop :
  le (ofNat (List.length xs)) stop = true -> slice0 xs stop = xs.
Proof.
  unfold slice0. destruct stop as [|[|]|q]; simpl; try discriminate.
  - intros _. rewrite Nat2Z.id. apply firstn_all.
  - intros Hq. apply Qle_bool_iff in Hq.
    assert (Hfloor : (Z.of_nat (List.length xs) <= Qfloor q)%Z).
    { rewrite <- (Qfloor_Z (Z.of_nat (List.length xs))). now apply Qfloor_resp_le. }
    assert (H0 : Qle_bool 0 q = true).
    { apply Qle_bool_iff. apply Qle_trans with (inject_Z (Z.of_nat (List.length xs)));
        [|exact Hq].
      change 0%Q with (inject_Z 0). rewrite <- Zle_Qle. lia. }
    unfold truncate. rewrite H0.
    destruct (Z.ltb_spec (Qfloor q) 0); [lia|].
    rewrite Z.min_r by lia. rewrite Nat2Z.id. apply firstn_all.
Qed.

Lemma isDecimalDigit_plain c :
  isDecimalDigit c = true ->
  isWhiteSpace c = false /\ c <> 43%N /\ c <> 45%N.
Proof.
  unfold isDecimalDigit, isWhiteSpace, inRange. intros H.
  apply andb_prop in H as [Hlo Hhi].
  apply N.leb_le in Hlo. apply N.leb_le in Hhi.
  split; [|split; lia].
  repeat (apply orb_false_iff; split);
    try (apply N.eqb_neq; lia);
    apply andb_false_iff; (left; apply N.leb_gt; lia) || (right; apply N.leb_gt; lia).
Qed.

Lemma stripSign_other c r : c <> 43%N -> c <> 45%N -> stripSign (c :: r) = (false, c :: r).
Proof.
  intros H43 H45. unfold stripSign.
  destruct c as [|p]; [reflexivity|].
  repeat (destruct p as [p|p|]; try reflexivity; try congruence).
Qed.

Lemma span_digits ds rest :
  forallb isDecimalDigit ds = true ->
  match rest with c :: _ => isDecimalDigit c = false | [] => True end ->
  span isDecimalDigit (ds ++ rest) = (ds, rest).
Proof.
  intros Hds Hrest. induction ds as [|d ds IH]; simpl in *.
  - destruct rest as [|c r]; [reflexivity|]. simpl. now rewrite Hrest.
  - apply andb_prop in Hds as [Hd Hds]. rewrite Hd, (IH Hds). reflexivity.
Qed.

Lemma leadingDigits_prefix d ds rest :
  forallb isDecimalDigit (d :: ds) = true ->
  match rest with c :: _ => isDecimalDigit c = false | [] => True end ->
  leadingDigits ((d :: ds) ++ rest) = d :: ds.
Proof.
  intros Hds Hrest. unfold leadingDigits.
  assert (Hd : isDecimalDigit d = true) by (simpl in Hds; now apply andb_prop in Hds).
  destruct (isDecimalDigit_plain d Hd) as (Hws & H43 & H45).
  cbn [app trimStart]. rewrite Hws.
  rewrite (stripSign_other d _ H43 H45). cbn [snd].
  change (d :: ds ++ rest) with ((d :: ds) ++ rest).
  now rewrite (span_digits (d :: ds) rest Hds Hrest).
Qed.

Section EndOfRun.

Context {W : Type} (host : Host W).

(** X16: when the accumulated comments are at most as many as the
    maximum, [analyzeCode] returns all of them, unchanged. *)
Theorem all_returned_within_maximum prDetails files s all s' :
  accumulate host files prDetails s = (Normal all, s') ->
  le (ofNat (List.length all)) (MAX_COMMENTS_PER_PR host) = true ->
  analyzeCode host files prDetails s = (Normal all, s').
Proof.
  intros Hall Hmax. now rewrite analyzeCode_cut, Hall, (slice0_all all _ Hmax).
Qed.

(** X17: of the input for the maximum only the leading decimal digits
    count: whatever follows them, a fraction or a word, is ignored. *)
Theorem maximum_reads_leading_digits d ds rest :
  getInput host (lit "MAX_COMMENTS_PER_PR") = (d :: ds) ++ rest ->
  forallb isDecimalDigit (d :: ds) = true ->
  match rest with c :: _ => isDecimalDigit c = false | [] => True end ->
  MAX_COMMENTS_PER_PR host = toDouble (inject_Z (digitsValue 10 (d :: ds))).
Proof.
  intros Hin Hds Hrest. unfold MAX_COMMENTS_PER_PR. rewrite Hin.
  cbn [app isEmpty]. unfold parseInt10.
  change (d :: ds ++ rest) with ((d :: ds) ++ rest).
  rewrite (leadingDigits_prefix d ds rest Hds Hrest). cbn [isEmpty].
  assert (Hd : isDecimalDigit d = true) by (simpl in Hds; now apply andb_prop in Hds).
  destruct (isDecimalDigit_plain d Hd) as (Hws & H43 & H45).
  cbn [app trimStart]. rewrite Hws, (stripSign_other d _ H43 H45). reflexivity.
Qed.

(** X24: with a maximum of minus [k], for a positive integer [k], the
    cut drops the last [k] of the accumulated comments instead of
    keeping none or all. *)
Theorem negative_maximum_drops_last prDetails files s all s' (k : positive) :
  accumulate host files prDetails s = (Normal all, s') ->
  MAX_COMMENTS_PER_PR host = ofZ (Z.neg k) ->
  analyzeCode host files prDetails s
  = (Normal (firstn (List.length all - Pos.to_nat k) all), s').
Proof.
  intros Hall Hmax. rewrite analyzeCode_cut, Hall, Hmax.
  unfold slice0, ofZ, truncate.
  assert (Hneg : Qle_bool 0 (inject_Z (Z.neg k)) = false).
  { destruct (Qle_bool 0 (inject_Z (Z.neg k))) eqn:E; [|reflexivity].
    apply Qle_bool_iff in E. change 0%Q with (inject_Z 0) in E.
    rewrite <- Zle_Qle in E. lia. }
  rewrite Hneg, Qceiling_Z.
  destruct (Z.ltb_spec (Z.neg k) 0); [|lia].
  do 3 f_equal. lia.
Qed.

(** ** Calls that a computation avoids *)

Lemma avoids_ret p {A} (a : A) : Avoids p (@ret W A a).
Proof.
  intros s r s' H. inversion H; subst. exists []. split;
    [now rewrite app_nil_r | constructor].
Qed.

Lemma avoids_lift p {A} (o : Outcome A) : Avoids p (@lift W A o).
Proof.
  intros s r s' H. inversion H; subst. exists []. split;
    [now rewrite app_nil_r | constructor].
Qed.

Lemma avoids_bind p {A B} (m : M W A) (k : A -> M W B) :
  Avoids p m -> (forall a, Avoids p (k a)) -> Avoids p (bind m k).
Proof.
  intros Hm Hk s r s' H. unfold bind in H.
  destruct (m s) as [[a|e] s1] eqn:E.
  - destruct (Hm _ _ _ E) as (x1 & E1 & Q1).
    destruct (Hk a _ _ _ H) as (x2 & E2 & Q2).
    exists (x1 ++ x2). split; [now rewrite E2, E1, app_assoc | now apply Forall_app].
  - inversion H; subst. eauto.
Qed.

Lemma avoids_await p {A} (c : Call) (answer : W -> Outcome A * W) :
  p c = false -> Avoids p (await c answer).
Proof.
  intros Hc s r s' H. unfold await in H.
  destruct (answer (world s)) as [r0 w]. inversion H; subst. simpl.
  exists [c]. split; [reflexivity | now constructor].
Qed.

Ltac avoids :=
  repeat first
    [ apply avoids_ret
    | apply avoids_lift
    | apply avoids_await; reflexivity
    | apply avoids_bind; [|intros] ].

Lemma avoids_loadDiff : Avoids isRemote (loadDiff host).
Proof.
  unfold loadDiff, getPRDetails, readEvent.
  apply avoids_bind; [avoids | intros pr].
  apply avoids_bind; [avoids | intros event].
  apply avoids_bind; [avoids | intros action].
  apply avoids_bind; [|intros; avoids].
  destruct (isSynchronize action); [avoids|].
  unfold getDiff. avoids.
Qed.

(** X18: when the pull request or its diff cannot be loaded (the event
    file cannot be read or parsed, a field of the event is missing, a
    request is rejected), the run ends with exit code 1 where loading
    stopped, having made no completion request and created no
    review. *)
Theorem loading_failure_is_fatal w e s1 :
  loadDiff host (initial w) = (Throw e, s1) ->
  run host w = (1%Z, s1)
  /\ Forall (fun c => isRemote c = false) (calls s1).
Proof.
  intros Hload. split.
  - unfold run, main, bind. now rewrite Hload.
  - destruct (avoids_loadDiff _ _ _ Hload) as (extra & E & Q).
    now rewrite E.
Qed.

(** X19: an event whose text parses to an object without [repository]
    ends the run with exit code 1 right after the event file was read:
    [repository.owner] throws a TypeError before any request. *)
Theorem missing_repository_is_fatal w text w1 members :
  readFileSync host (orEmpty (GITHUB_EVENT_PATH host)) w = (Normal text, w1) ->
  JSON_parse text = Normal (VObject members) ->
  getOwn (lit "repository") members = None ->
  run host w
  = (1%Z, {| world := w1; calls := [ReadFile (orEmpty (GITHUB_EVENT_PATH host))] |}).
Proof.
  intros Hread Hparse Hnone.
  unfold run, main, loadDiff, getPRDetails, readEvent, bind, await, lift, initial.
  cbn [world calls app]. rewrite Hread, Hparse. cbn [getProp]. rewrite Hnone.
  destruct (getOwn (lit "number") members); reflexivity.
Qed.

(** X20: when [analyzeCode] throws, the run ends with exit code 1 in
    the state of the throw and no review is created: the comments that
    earlier units had gathered are not published. *)
Theorem analysis_failure_publishes_nothing w prDetails diff s1 e s2 :
  loadDiff host (initial w) = (Normal (prDetails, diff), s1) ->
  isEmpty (orEmpty diff) = false ->
  analyzeCode host (filteredDiff host (orEmpty diff)) prDetails s1 = (Throw e, s2) ->
  run host w = (1%Z, s2) /\ NoReview (calls s2).
Proof.
  intros Hload Hdiff Hrun. split.
  - unfold run, main, bind. rewrite Hload. cbn [fst snd]. now rewrite Hdiff, Hrun.
  - destruct (quiet_loadDiff host _ _ _ Hload) as (x1 & E1 & Q1).
    destruct (quiet_analyzeCode host _ _ _ _ _ Hrun) as (x2 & E2 & Q2).
    rewrite E2, E1. cbn [initial calls app]. now apply NoReview_app.
Qed.

(** X21: when the creation of the review is rejected, the run ends
    with exit code 1 right after that call. *)
Theorem publish_failure_is_fatal w prDetails diff s1 comments s2 e w' :
  loadDiff host (initial w) = (Normal (prDetails, diff), s1) ->
  isEmpty (orEmpty diff) = false ->
  analyzeCode host (filteredDiff host (orEmpty diff)) prDetails s1
  = (Normal comments, s2) ->
  comments <> [] ->
  pulls_createReview host (owner prDetails) (repo prDetails) (pull_number prDetails)
                     comments (world s2) = (Throw e, w') ->
  run host w
  = (1%Z,
     {| world := w';
        calls := calls s2 ++ [CreateReview (owner prDetails) (repo prDetails)
                                           (pull_number prDetails) comments] |}).
Proof.
  intros Hload Hdiff Hrun Hne Hcreate.
  unfold run, main, bind. rewrite Hload. cbn [fst snd]. rewrite Hdiff, Hrun.
  destruct comments as [|c cs]; [congruence|]. cbn [List.length Nat.ltb Nat.leb].
  unfold createReviewComment, await. now rewrite Hcreate.
Qed.

(** X22: a run creates at most one review, and when it creates one
    this is its last call. *)
Theorem at_most_one_review w :
  exists before,
    NoReview before
    /\ (calls (snd (run host w)) = before
        \/ exists o r p comments,
            calls (snd (run host w)) = before ++ [CreateReview o r p comments]).
Proof.
  rewrite run_state.
  destruct (main host (initial w)) as [res s'] eqn:Hmain. cbn [snd].
  destruct (main_calls host _ _ _ Hmain) as (extra & E & Hcases).
  cbn [initial calls app] in E. rewrite E.
  destruct Hcases as [Hq | (pr & diff & s1 & s2 & cs & before & _ & _ & _ & _ & -> & Hq)].
  - exists extra. split; [exact Hq | now left].
  - exists before. split; [exact Hq | right; eauto].
Qed.

(** ** The exclude patterns *)

Lemma split_not_empty sep s : split sep s <> [].
Proof.
  destruct s as [|c r]; simpl; [discriminate|].
  destruct (c =? sep)%N; [discriminate|].
  destruct (split sep r); discriminate.
Qed.

(** X23: the files that are reviewed are those of the parsed diff
    that [minimatch] matches against none of the exclude patterns; there is always at least one pattern, and for an empty
    input it is the empty pattern, against which every file is still
    matched. *)
Theorem excluded_files_are_dropped diff :
  (forall file,
      In file (filteredDiff host diff)
      <-> In file (parseDiff host diff)
          /\ forall pattern, In pattern (excludePatterns host) ->
                             minimatch host (orEmpty (to file)) pattern = false)
  /\ excludePatterns host <> []
  /\ (getInput host (lit "exclude") = [] -> excludePatterns host = [[]]).
Proof.
  split; [|split].
  - intros file. unfold filteredDiff. fold (excludePatterns host).
    rewrite filter_In, negb_true_iff. split; intros [Hin Hno]; split; auto.
    + intros pattern Hp.
      destruct (minimatch host (orEmpty (to file)) pattern) eqn:Hm; [|reflexivity].
      assert (Hex : existsb (fun pattern => minimatch host (orEmpty (to file)) pattern)
                            (excludePatterns host) = true)
        by (apply existsb_exists; eauto).
      congruence.
    + destruct (existsb _ _) eqn:Hex; [|reflexivity].
      apply existsb_exists in Hex as (pattern & Hp & Hm).
      rewrite (Hno pattern Hp) in Hm. discriminate.
  - unfold excludePatterns. intros H. apply map_eq_nil in H.
    now apply split_not_empty in H.
  - intros H. unfold excludePatterns. now rewrite H.
Qed.

End EndOfRun.

(** ** The properties at sample inputs *)

Lemma blank_reply_adds_no_comment_witness :
  let host := Examples.scripted "10" [Examples.twoSmallHunks] in
  let unit := wholeFile (chunks Examples.twoSmallHunks) in
  let s := initial [Examples.reply "  "] in
  reviewUnit host Examples.samplePR Examples.twoSmallHunks unit [] s
  = (Normal [],
     afterRequest host (createPrompt Examples.twoSmallHunks unit Examples.samplePR) s).
Proof.
  cbv zeta.
  refine (proj2 (blank_reply_adds_no_comment
                   (Examples.scripted "10" [Examples.twoSmallHunks])
                   Examples.samplePR Examples.twoSmallHunks
                   (wholeFile (chunks Examples.twoSmallHunks)) []
                   (initial [Examples.reply "  "])
                   {| choices := [ {| message := Some {| message_content := Some (lit "  ") |} |} ] |}
                   [] _ [] eq_refl eq_refl _)).
  right; right. exists (lit "  "). split; reflexivity.
Defined.

Lemma failed_completion_adds_no_comment_witness :
  let host := Examples.scripted "10" [Examples.twoSmallHunks] in
  let unit := wholeFile (chunks Examples.twoSmallHunks) in
  let s := initial [Examples.reply "{'reviews': oops"] in
  reviewUnit host Examples.samplePR Examples.twoSmallHunks unit [] s
  = (Normal [],
     afterRequest host (createPrompt Examples.twoSmallHunks unit Examples.samplePR) s).
Proof.
  cbv zeta. apply failed_completion_adds_no_comment. cbv zeta.
  right. eexists. split; [reflexivity|]. right.
  exists (quoted "{'reviews': oops"), SyntaxError. split; reflexivity.
Defined.

Lemma reviews_of_wrong_kind_abort_witness :
  let host := Examples.scripted "10" [Examples.twoSmallHunks] in
  let unit := wholeFile (chunks Examples.twoSmallHunks) in
  let s := initial [Examples.reply "{'reviews': 5}"] in
  reviewUnit host Examples.samplePR Examples.twoSmallHunks unit [] s
  = (Throw TypeError,
     afterRequest host (createPrompt Examples.twoSmallHunks unit Examples.samplePR) s).
Proof.
  cbv zeta. apply (reviews_of_wrong_kind_abort _ _ _ _ _ _ (VNumber (ofZ 5))).
  - vm_compute. reflexivity.
  - reflexivity.
  - discriminate.
Defined.

Lemma one_request_per_unit_witness :
  let files := [Examples.twoSmallHunks; deletedFile; Examples.mixedFile] in
  let host := Examples.scripted "10" files in
  let s := initial [Examples.nothingFound; Examples.nothingFound; Examples.nothingFound] in
  calls (snd (analyzeCode host files Examples.samplePR s))
  = requestsFor host Examples.samplePR Examples.twoSmallHunks
      [wholeFile (chunks Examples.twoSmallHunks)]
    ++ requestsFor host Examples.samplePR Examples.mixedFile
         [combinedChunk (Examples.hunk 10 5) (Examples.hunk 40 1);
          combinedChunk (Examples.hunk 70 5) (Examples.hunk 90 5)].
Proof.
  cbv zeta.
  set (files := [Examples.twoSmallHunks; deletedFile; Examples.mixedFile]).
  set (host := Examples.scripted "10" files).
  set (s := initial [Examples.nothingFound; Examples.nothingFound; Examples.nothingFound]).
  assert (H : analyzeCode host files Examples.samplePR s
              = (Normal [], snd (analyzeCode host files Examples.samplePR s)))
    by (vm_compute; reflexivity).
  rewrite (one_request_per_unit host _ _ _ _ _ H). reflexivity.
Defined.

Lemma no_path_no_comment_witness :
  createComment pathless (wholeFile (chunks pathless)) (VArray (VNull :: Examples.fiveSuggestions))
  = Normal [].
Proof. apply no_path_no_comment. left. reflexivity. Defined.

Lemma comments_carry_the_path_witness :
  let file := Examples.twoSmallHunks in
  exists comments,
    createComment file (wholeFile (chunks file)) (VArray Examples.fiveSuggestions)
    = Normal comments
    /\ Forall (fun c => to file = Some (path c)) comments
    /\ List.length comments <= 5.
Proof.
  cbv zeta. eexists. split; [vm_compute; reflexivity|].
  apply (comments_carry_the_path Examples.twoSmallHunks
           (wholeFile (chunks Examples.twoSmallHunks)) Examples.fiveSuggestions).
  vm_compute. reflexivity.
Defined.

Lemma comments_of_appended_suggestions_witness :
  let file := Examples.twoSmallHunks in
  let chunk := wholeFile (chunks file) in
  exists a b,
    createComment file chunk (VArray (firstn 2 Examples.fiveSuggestions)) = Normal a
    /\ createComment file chunk (VArray (skipn 2 Examples.fiveSuggestions)) = Normal b
    /\ createComment file chunk
         (VArray (firstn 2 Examples.fiveSuggestions ++ skipn 2 Examples.fiveSuggestions))
       = Normal (a ++ b).
Proof.
  cbv zeta. do 2 eexists.
  assert (Ha : createComment Examples.twoSmallHunks
                 (wholeFile (chunks Examples.twoSmallHunks))
                 (VArray (firstn 2 Examples.fiveSuggestions))
               = Normal (assemble Examples.twoSmallHunks (firstn 2 Examples.fiveSuggestions)))
    by (vm_compute; reflexivity).
  assert (Hb : createComment Examples.twoSmallHunks
                 (wholeFile (chunks Examples.twoSmallHunks))
                 (VArray (skipn 2 Examples.fiveSuggestions))
               = Normal (assemble Examples.twoSmallHunks (skipn 2 Examples.fiveSuggestions)))
    by (vm_compute; reflexivity).
  split; [exact Ha | split; [exact Hb |]].
  exact (comments_of_appended_suggestions _ _ _ _ _ _ Ha Hb).
Defined.

Lemma comments_follow_files_witness :
  let files := [Examples.twoSmallHunks; Examples.mixedFile] in
  let host := Examples.scripted "10" files in
  let s := initial [Examples.threeSuggestions; Examples.nothingFound;
                    Examples.threeSuggestions] in
  exists all groups,
    fst (accumulate host files Examples.samplePR s) = Normal all
    /\ List.length all = 6
    /\ all = List.concat groups
    /\ Forall2 (fun file group => Forall (fun c => to file = Some (path c)) group)
               files groups.
Proof.
  cbv zeta.
  set (files := [Examples.twoSmallHunks; Examples.mixedFile]).
  set (host := Examples.scripted "10" files).
  set (s := initial [Examples.threeSuggestions; Examples.nothingFound;
                     Examples.threeSuggestions]).
  assert (H : exists all,
             accumulate host files Examples.samplePR s
             = (Normal all, snd (accumulate host files Examples.samplePR s))
             /\ List.length all = 6).
  { eexists. split; [vm_compute; reflexivity | reflexivity]. }
  destruct H as (all & Hall & Hlen).
  destruct (comments_follow_files host _ _ _ _ _ Hall) as (groups & Hg & Hf).
  exists all, groups. rewrite Hall. repeat split; auto.
Defined.

Lemma deleted_files_are_passed_over_witness :
  let host := Examples.scripted "10" [deletedFile; deletedFile] in
  accumulate host [deletedFile; deletedFile] Examples.samplePR
             (initial [Examples.threeSuggestions])
  = (Normal [], initial [Examples.threeSuggestions]).
Proof.
  cbv zeta. apply deleted_files_are_passed_over. repeat constructor.
Defined.

Lemma all_returned_within_maximum_witness :
  let files := [Examples.twoSmallHunks] in
  let host := Examples.scripted "3" files in
  let s := initial [Examples.threeSuggestions] in
  exists all,
    List.length all = 3
    /\ fst (analyzeCode host files Examples.samplePR s) = Normal all.
Proof.
  cbv zeta.
  set (files := [Examples.twoSmallHunks]).
  set (host := Examples.scripted "3" files).
  set (s := initial [Examples.threeSuggestions]).
  assert (H : exists all,
             accumulate host files Examples.samplePR s
             = (Normal all, snd (accumulate host files Examples.samplePR s))
             /\ List.length all = 3).
  { eexists. split; [vm_compute; reflexivity | reflexivity]. }
  destruct H as (all & Hall & Hlen).
  exists all. split; [exact Hlen|].
  rewrite (all_returned_within_maximum host _ _ _ _ _ Hall); [reflexivity|].
  rewrite Hlen. reflexivity.
Defined.

Lemma maximum_reads_leading_digits_witness :
  MAX_COMMENTS_PER_PR (Examples.scripted "10.5" []) = ofZ 10.
Proof.
  rewrite (maximum_reads_leading_digits (Examples.scripted "10.5" [])
             49%N [48%N] (lit ".5")); reflexivity.
Defined.

Lemma negative_maximum_drops_last_witness :
  let files := [Examples.twoSmallHunks] in
  let host := Examples.scripted "-2" files in
  let s := initial [Examples.threeSuggestions] in
  exists all,
    fst (accumulate host files Examples.samplePR s) = Normal all
    /\ fst (analyzeCode host files Examples.samplePR s) = Normal (firstn 1 all).
Proof.
  cbv zeta.
  set (files := [Examples.twoSmallHunks]).
  set (host := Examples.scripted "-2" files).
  set (s := initial [Examples.threeSuggestions]).
  assert (H : exists all,
             accumulate host files Examples.samplePR s
             = (Normal all, snd (accumulate host files Examples.samplePR s))
             /\ List.length all = 3).
  { eexists. split; [vm_compute; reflexivity | reflexivity]. }
  destruct H as (all & Hall & Hlen).
  exists all. rewrite Hall. split; [reflexivity|].
  rewrite (negative_maximum_drops_last host _ _ _ _ _ 2%positive Hall eq_refl).
  rewrite Hlen. reflexivity.
Defined.

Lemma createComment_path_only_witness :
  createComment Examples.twoSmallHunks (wholeFile (chunks Examples.twoSmallHunks))
                Examples.strayLines
  = createComment (Examples.fileOf "src/small.ts" []) (Examples.hunk 1 0)
                  Examples.strayLines.
Proof. apply createComment_path_only. reflexivity. Defined.

Lemma loading_failure_is_fatal_witness :
  let host := withEvent (Examples.scripted "10" [Examples.twoSmallHunks])
                        (fun _ w => (Throw HostError, w)) in
  fst (run host [Examples.threeSuggestions]) = 1%Z
  /\ Forall (fun c => isRemote c = false)
            (calls (snd (run host [Examples.threeSuggestions]))).
Proof.
  cbv zeta.
  set (host := withEvent (Examples.scripted "10" [Examples.twoSmallHunks])
                         (fun _ w => (Throw HostError, w))).
  assert (Hload : loadDiff host (initial [Examples.threeSuggestions])
                  = (Throw HostError,
                     snd (loadDiff host (initial [Examples.threeSuggestions]))))
    by (vm_compute; reflexivity).
  destruct (loading_failure_is_fatal host _ _ _ Hload) as [Hrun Hcalls].
  rewrite Hrun. split; [reflexivity | exact Hcalls].
Defined.

Lemma missing_repository_is_fatal_witness :
  let host := withEvent (Examples.scripted "10" [Examples.twoSmallHunks])
                        (fun _ w => (Normal (quoted "{'action': 'opened', 'number': 7}"), w)) in
  run host [Examples.threeSuggestions]
  = (1%Z, {| world := [Examples.threeSuggestions];
             calls := [ReadFile (lit "/github/workflow/event.json")] |}).
Proof.
  cbv zeta.
  apply (missing_repository_is_fatal
           (withEvent (Examples.scripted "10" [Examples.twoSmallHunks])
                      (fun _ w => (Normal (quoted "{'action': 'opened', 'number': 7}"), w)))
           [Examples.threeSuggestions]
           (quoted "{'action': 'opened', 'number': 7}")
           [Examples.threeSuggestions]
           [(lit "action", VString (lit "opened")); (lit "number", VNumber (ofZ 7))]);
    reflexivity.
Defined.

Lemma analysis_failure_publishes_nothing_witness :
  let files := [Examples.twoSmallHunks; Examples.mixedFile] in
  let host := Examples.scripted "10" files in
  let w := [Examples.threeSuggestions; Examples.incompleteReply;
            Examples.threeSuggestions] in
  fst (run host w) = 1%Z /\ NoReview (calls (snd (run host w))).
Proof.
  cbv zeta.
  set (files := [Examples.twoSmallHunks; Examples.mixedFile]).
  set (host := Examples.scripted "10" files).
  set (w := [Examples.threeSuggestions; Examples.incompleteReply;
             Examples.threeSuggestions]).
  set (diff := Some (lit "diff --git a/f b/f")).
  assert (Hload : loadDiff host (initial w)
                  = (Normal (Examples.samplePR, diff), snd (loadDiff host (initial w))))
    by (vm_compute; reflexivity).
  assert (Hrun : analyzeCode host (filteredDiff host (orEmpty diff)) Examples.samplePR
                   (snd (loadDiff host (initial w)))
                 = (Throw TypeError,
                    snd (analyzeCode host (filteredDiff host (orEmpty diff))
                           Examples.samplePR (snd (loadDiff host (initial w))))))
    by (vm_compute; reflexivity).
  destruct (analysis_failure_publishes_nothing host w _ _ _ _ _ Hload eq_refl Hrun)
    as [Hexit Hquiet].
  rewrite Hexit. split; [reflexivity | exact Hquiet].
Defined.

Lemma publish_failure_is_fatal_witness :
  let host := withCreateReview (Examples.scripted "10" [Examples.twoSmallHunks])
                               (fun _ _ _ _ w => (Throw HostError, w)) in
  fst (run host [Examples.threeSuggestions]) = 1%Z.
Proof.
  cbv zeta.
  set (host := withCreateReview (Examples.scripted "10" [Examples.twoSmallHunks])
                                (fun _ _ _ _ w => (Throw HostError, w))).
  set (w := [Examples.threeSuggestions]).
  set (diff := Some (lit "diff --git a/f b/f")).
  set (s1 := snd (loadDiff host (initial w))).
  set (result := analyzeCode host (filteredDiff host (orEmpty diff)) Examples.samplePR s1).
  set (comments := match fst result with Normal cs => cs | Throw _ => [] end).
  assert (Hload : loadDiff host (initial w) = (Normal (Examples.samplePR, diff), s1))
    by (vm_compute; reflexivity).
  assert (Hrun : result = (Normal comments, snd result)) by (vm_compute; reflexivity).
  assert (Hne : comments <> []) by (vm_compute; discriminate).
  assert (Hcreate : pulls_createReview host (owner Examples.samplePR)
                      (repo Examples.samplePR) (pull_number Examples.samplePR)
                      comments (world (snd result))
                    = (Throw HostError, world (snd result))) by reflexivity.
  rewrite (publish_failure_is_fatal host w _ _ _ _ _ _ _ Hload eq_refl Hrun Hne Hcreate).
  reflexivity.
Defined.

End ReviewerMore.
